(** * pdfs_ai_rename: token-budget trimming and filename sanitisation

    A shallow embedding of [src/pdfs_ai_rename.py].  Python values are
    modelled as follows.

    - [str] is a list of Unicode code points ([N]); slicing, [strip],
      [lower], [endswith] and [re.sub] are written out in [Module Py].
    - [int] is [Z]; [len] returns a [Z].
    - [float] is IEEE binary64, through the reference semantics of
      [SpecFloat] (precision 53, [emax] 1024).
    - The tokenizer ([tiktoken]), the clock ([time.gmtime]), the PDF reader,
      the chat-completion service and the file system are collaborators that
      live outside the repository: they enter as parameters or as fields of
      an explicit world. *)

From Stdlib Require Import String Ascii.
From Stdlib Require Import ZArith NArith List Bool Lia.
From Stdlib Require Import Permutation Sorted.
From Stdlib Require Import Floats.SpecFloat.
Import ListNotations.

Local Open Scope Z_scope.

(* ================================================================== *)
(** * Python primitives *)
(* ================================================================== *)

Module Py.

(** A character is a code point; a string is a sequence of them. *)
Definition char := N.
Definition str := list char.

(** String literals of the source, written as Rocq strings. *)
Definition lit (s : string) : str := map N_of_ascii (list_ascii_of_string s).

Definition len {A} (s : list A) : Z := Z.of_nat (length s).

(** Truth value of a string: [not s] holds exactly for the empty one. *)
Definition truthy (s : str) : bool :=
  match s with [] => false | _ :: _ => true end.

(** [s[:k]]: a negative bound counts from the end. *)
Definition slice_to (s : str) (k : Z) : str :=
  if 0 <=? k then firstn (Z.to_nat k) s
  else firstn (Z.to_nat (len s + k)) s.

Definition str_eqb (a b : str) : bool :=
  if list_eq_dec N.eq_dec a b then true else false.

Definition between (lo hi c : N) : bool := (N.leb lo c && N.leb c hi)%bool.

(** ** Character classes *)

Definition is_upper_ascii (c : char) : bool := between 65 90 c.
Definition is_lower_ascii (c : char) : bool := between 97 122 c.
Definition is_digit (c : char) : bool := between 48 57 c.

(** The class [[A-Za-z0-9_]] of the sanitiser's pattern. *)
Definition in_word_class (c : char) : bool :=
  (is_upper_ascii c || is_lower_ascii c || is_digit c || N.eqb c 95)%bool.

(** [str.isspace] on one character: the code points CPython lists in
    [_PyUnicode_IsWhitespace]. *)
Definition is_whitespace (c : char) : bool :=
  (between 9 13 c || between 28 32 c || N.eqb c 133 || N.eqb c 160
   || N.eqb c 5760 || between 8192 8202 c || N.eqb c 8232 || N.eqb c 8233
   || N.eqb c 8239 || N.eqb c 8287 || N.eqb c 12288)%bool.

Fixpoint lstrip (s : str) : str :=
  match s with
  | [] => []
  | c :: t => if is_whitespace c then lstrip t else s
  end.

Definition rstrip (s : str) : str := rev (lstrip (rev s)).

(** [s.strip()] with no argument. *)
Definition strip (s : str) : str := rstrip (lstrip s).

(** [re.sub(pattern, repl, s)] for a pattern that is a single character
    class: every matching character is replaced by [repl], the others are
    copied in order. *)
Fixpoint re_sub_class (matches : char -> bool) (repl s : str) : str :=
  match s with
  | [] => []
  | c :: t => (if matches c then repl else [c]) ++ re_sub_class matches repl t
  end.

(** [s.endswith(suffix)]. *)
Definition endswith (s suffix : str) : bool :=
  str_eqb (skipn (length s - length suffix) s) suffix
  && Nat.leb (length suffix) (length s).

Definition is_ascii (c : char) : bool := N.ltb c 128.

Definition lower_ascii_char (c : char) : char :=
  if is_upper_ascii c then (c + 32)%N else c.

(** [s.lower()].  CPython lowers a pure-ASCII string byte by byte and
    sends every other string through the Unicode case tables, which are
    the parameter [unicode_lower]. *)
Definition lower (unicode_lower : str -> str) (s : str) : str :=
  if forallb is_ascii s then map lower_ascii_char s else unicode_lower s.

(** Number of bytes of a code point in UTF-8. *)
Definition utf8_len_char (c : char) : Z :=
  if N.ltb c 128 then 1 else if N.ltb c 2048 then 2
  else if N.ltb c 65536 then 3 else 4.

Definition utf8_len (s : str) : Z :=
  fold_right (fun c acc => utf8_len_char c + acc) 0 s.

(** ** [time.strftime] *)

(** The fields of [time.struct_time] that the format reads. *)
Record struct_time := {
  tm_year : Z; tm_mon : Z; tm_mday : Z;
  tm_hour : Z; tm_min : Z; tm_sec : Z
}.

Definition digit (d : Z) : char := Z.to_N (48 + d).

(** Decimal digits of a non-negative number, most significant first. *)
Fixpoint digits_fuel (fuel : nat) (n : Z) : str :=
  match fuel with
  | O => []
  | S f => if n <? 10 then [digit n]
           else digits_fuel f (n / 10) ++ [digit (n mod 10)]
  end.

Definition decimal (n : Z) : str :=
  if n <? 0 then 45%N :: digits_fuel (S (Z.to_nat (Z.log2 (- n)))) (- n)
  else digits_fuel (S (Z.to_nat (Z.log2 n))) n.

(** Two-digit, zero-padded field ([%m], [%d], [%H], [%M], [%S]). *)
Definition two_digits (n : Z) : str := [digit (n / 10); digit (n mod 10)].

(** [time.strftime('%Y%m%d%H%M%S', tm)]: [%Y] is the year in decimal as
    the C library prints it, the other fields are two digits wide. *)
Definition strftime_YmdHMS (tm : struct_time) : str :=
  decimal (tm_year tm) ++ two_digits (tm_mon tm) ++ two_digits (tm_mday tm)
  ++ two_digits (tm_hour tm) ++ two_digits (tm_min tm) ++ two_digits (tm_sec tm).

(** The ranges of the fields other than the year, as [time.strftime]
    checks them. *)
Definition fields_in_range (tm : struct_time) : Prop :=
  1 <= tm_mon tm <= 12 /\ 1 <= tm_mday tm <= 31
  /\ 0 <= tm_hour tm <= 23 /\ 0 <= tm_min tm <= 59 /\ 0 <= tm_sec tm <= 61.

(** What [time.gmtime()] can return: a year of the common era that a C
    [int] holds, and fields in their ranges. *)
Definition gmtime_range (tm : struct_time) : Prop :=
  0 <= tm_year tm < 2 ^ 31 /\ fields_in_range tm.

(** The years that [%Y] prints in four digits. *)
Definition four_digit_year (tm : struct_time) : Prop :=
  1000 <= tm_year tm <= 9999.

(** The digit of weight [10^i] of [n]. *)
Definition digit_at (n : Z) (i : nat) : char := digit ((n / 10 ^ Z.of_nat i) mod 10).

(** [n] printed in exactly [w] decimal digits, zero-padded. *)
Definition fixed_width (w : nat) (n : Z) : str := map (digit_at n) (rev (seq 0 w)).

End Py.

Import Py.

(** ** Floating point *)

(** Python's [float] is IEEE binary64; the operations below are the ones
    the expression [int(len(content) * 0.9)] goes through. *)
Module Float64.

Definition prec : Z := 53.
Definition emax : Z := 1024.

(** [float(n)] for an [int]: round to nearest even, [OverflowError]
    ([None]) when the result is not finite. *)
Definition float_of_int (n : Z) : option spec_float :=
  match binary_normalize prec emax n 0 false with
  | S754_infinity _ => None
  | x => Some x
  end.

Definition mul : spec_float -> spec_float -> spec_float := SFmul prec emax.

(** The literal [0.9]: the double nearest to 9/10. *)
Definition lit_0_9 : spec_float :=
  SFdiv prec emax (binary_normalize prec emax 9 0 false)
                  (binary_normalize prec emax 10 0 false).

(** [int(x)]: truncation toward zero; infinities and NaN raise. *)
Definition int_of_float (x : spec_float) : option Z :=
  match x with
  | S754_zero _ => Some 0
  | S754_finite s m e =>
      let a := if 0 <=? e then Z.pos m * 2 ^ e else Z.pos m / 2 ^ (- e) in
      Some (if s then - a else a)
  | _ => None
  end.

(** [int(n * 0.9)] for an [int] [n]. *)
Definition int_mul_0_9 (n : Z) : option Z :=
  match float_of_int n with
  | Some x => int_of_float (mul x lit_0_9)
  | None => None
  end.

End Float64.

(** ** Exceptions and results *)

Inductive exn :=
| OverflowError       (* int too large to convert to float *)
| FileNotFoundError   (* open() on a missing path *)
| PdfReadError        (* PdfReader rejects the file *)
| APIError            (* the chat-completion request fails *)
| ValueError.         (* the tokenizer refuses the text *)

(** What running a piece of code gives: a value, an exception that is
    propagating, or no answer within the allotted loop iterations. *)
Inductive outcome (A : Type) :=
| Return (a : A)
| Raise (e : exn)
| OutOfFuel.

Arguments Return {A} a.
Arguments Raise {A} e.
Arguments OutOfFuel {A}.

Definition bind {A B} (c : outcome A) (k : A -> outcome B) : outcome B :=
  match c with
  | Return a => k a
  | Raise e => Raise e
  | OutOfFuel => OutOfFuel
  end.

Notation "x <- c ;; k" := (bind c (fun x => k))
  (at level 61, c at next level, right associativity).

Definition lift_option {A} (e : exn) (o : option A) : outcome A :=
  match o with Some a => Return a | None => Raise e end.

(* ================================================================== *)
(** * The filename sanitiser *)
(* ================================================================== *)

(** [validate_and_trim_filename(initial_filename)].  The candidate is a
    string or [None]; [tm] is what [time.gmtime()] returns when called. *)
Definition validate_and_trim_filename (tm : struct_time)
    (initial_filename : option str) : str :=
  match initial_filename with
  | None => lit "empty_file_" ++ strftime_YmdHMS tm
  | Some initial_filename =>
      if negb (truthy initial_filename) then
        lit "empty_file_" ++ strftime_YmdHMS tm
      else
        let cleaned_filename :=
          re_sub_class (fun c => negb (in_word_class c)) [] initial_filename in
        if negb (truthy cleaned_filename) then
          lit "empty_file_" ++ strftime_YmdHMS tm
        else slice_to cleaned_filename 50
  end.

(** The shape [^[A-Za-z0-9_]{1,50}$]. *)
Definition word_1_50 (s : str) : bool :=
  (truthy s && Nat.leb (length s) 50 && forallb in_word_class s)%bool.

(** The shape [^empty_file_\d{14}$]. *)
Definition empty_file_14 (s : str) : bool :=
  (str_eqb (firstn 11 s) (lit "empty_file_")
   && Nat.eqb (length (skipn 11 s)) 14 && forallb is_digit (skipn 11 s))%bool.

(* ================================================================== *)
(** * The content budgeter *)
(* ================================================================== *)

Definition max_length : Z := 15000.

Definition placeholder : str :=
  lit "Content is empty or contains only whitespace.".

Section Budgeter.

(** [tiktoken.get_encoding("cl100k_base").encode]: text to token ids.
    The tokenizer is taken here on the texts it accepts; the check by
    which it refuses a text that spells a special token is
    [tiktoken_encode] below. *)
Variable encode : str -> list N.

(** One pass through the body of the loop, up to the new [content]. *)
Definition shrink (content : str) : outcome str :=
  new_length <- lift_option OverflowError (Float64.int_mul_0_9 (len content)) ;;
  Return (slice_to content new_length).

(** [content_token_cut(content, num_tokens, max_length)]; [fuel] bounds
    the number of times the loop body runs. *)
Fixpoint content_token_cut (fuel : nat) (content : str)
    (num_tokens max_length : Z) : outcome str :=
  if num_tokens >? max_length then
    match fuel with
    | O => OutOfFuel
    | S fuel' =>
        content <- shrink content ;;
        let num_tokens := len (encode content) in
        content_token_cut fuel' content num_tokens max_length
    end
  else Return content.

(** The budgeting step of [pdfs_to_text_string] (from the call to
    [get_encoding] to the [return]), with the module constant
    [max_length] as an argument. *)
Definition fit_to_budget (fuel : nat) (max_length : Z) (content : str)
    : outcome str :=
  let num_tokens := len (encode content) in
  if num_tokens >? max_length then
    content_token_cut fuel content num_tokens max_length
  else Return content.

End Budgeter.

(** ** The tokenizer's refusal of special tokens *)

(** The special tokens of [cl100k_base]. *)
Definition special_tokens : list str :=
  [lit "<|endoftext|>"; lit "<|fim_prefix|>"; lit "<|fim_middle|>";
   lit "<|fim_suffix|>"; lit "<|endofprompt|>"].

Definition starts_with (t s : str) : bool := str_eqb (firstn (length t) s) t.

(** [t] occurs in [s] as a substring. *)
Fixpoint occurs (t s : str) : bool :=
  match s with
  | [] => starts_with t []
  | _ :: s' => (starts_with t s || occurs t s')%bool
  end.

Definition spells_special (s : str) : bool :=
  existsb (fun t => occurs t s) special_tokens.

(** [encoding.encode(text)] as the source calls it, with the default
    [disallowed_special]: a text in which a special token occurs raises
    [ValueError], any other text is tokenized. *)
Definition tiktoken_encode (encode : str -> list N) (text : str)
    : outcome (list N) :=
  if spells_special text then Raise ValueError else Return (encode text).

Section RaisingBudgeter.

(** A tokenizer that may raise. *)
Variable tokenizer : str -> outcome (list N).

(** [content_token_cut] with the exception of the tokenizer propagating
    out of the loop. *)
Fixpoint content_token_cut_raising (fuel : nat) (content : str)
    (num_tokens max_length : Z) : outcome str :=
  if num_tokens >? max_length then
    match fuel with
    | O => OutOfFuel
    | S fuel' =>
        content <- shrink content ;;
        tokens <- tokenizer content ;;
        let num_tokens := len tokens in
        content_token_cut_raising fuel' content num_tokens max_length
    end
  else Return content.

(** The budgeting step of [pdfs_to_text_string] with the exception of
    the tokenizer propagating. *)
Definition fit_to_budget_raising (fuel : nat) (max_length : Z) (content : str)
    : outcome str :=
  tokens <- tokenizer content ;;
  let num_tokens := len tokens in
  if num_tokens >? max_length then
    content_token_cut_raising fuel content num_tokens max_length
  else Return content.

End RaisingBudgeter.

(* ================================================================== *)
(** * Files, the naming service and the batch *)
(* ================================================================== *)

(** A directory entry.  [f_pdf] is what [PdfReader] makes of the bytes:
    [None] when it rejects them, otherwise the text [extract_text()]
    gives for each page. *)
Record file := {
  f_name : str;
  f_mtime : Z;
  f_isfile : bool;
  f_pdf : option (list str)
}.

Definition directory := list file.

Definition listdir (d : directory) : list str := map f_name d.

Definition lookup (d : directory) (name : str) : option file :=
  find (fun f => str_eqb (f_name f) name) d.

(** [os.rename(src, dst)] inside one directory, as POSIX has it: the
    source must exist, a destination that is a directory is refused, a
    destination that is a file is replaced.  [None] is [OSError]. *)
Definition os_rename (d : directory) (src dst : str) : option directory :=
  match lookup d src with
  | None => None
  | Some f =>
      if str_eqb src dst then Some d
      else
        match lookup d dst with
        | Some g =>
            if f_isfile g then
              Some (map (fun x => if str_eqb (f_name x) src
                                  then {| f_name := dst; f_mtime := f_mtime x;
                                          f_isfile := f_isfile x; f_pdf := f_pdf x |}
                                  else x)
                        (filter (fun x => negb (str_eqb (f_name x) dst)) d))
            else None
        | None =>
            Some (map (fun x => if str_eqb (f_name x) src
                                then {| f_name := dst; f_mtime := f_mtime x;
                                        f_isfile := f_isfile x; f_pdf := f_pdf x |}
                                else x) d)
        end
  end.

(** [files.sort(key=getmtime, reverse=True)]: newest first, entries with
    the same time keep their order. *)
Fixpoint insert_newest (x : file) (l : list file) : list file :=
  match l with
  | [] => [x]
  | y :: t => if f_mtime y >? f_mtime x then y :: insert_newest x t
              else x :: l
  end.

Definition sort_newest_first (l : list file) : list file :=
  fold_right insert_newest [] l.

(** What the program prints. *)
Inductive event :=
| Reading (filepath : str)
| Renamed (new_filepath : str)
| RenameError.

Record world := { w_dir : directory; w_out : list event }.

Definition print (w : world) (e : event) : world :=
  {| w_dir := w_dir w; w_out := w_out w ++ [e] |}.

(** How a run over the directory ends. *)
Inductive batch_result :=
| Finished (w : world)
| Uncaught (e : exn) (w : world)
| Diverged.

(** The collision check of [rename_pdfs_in_directory]: the set
    comprehension over the listing, and the membership test that appends
    ["_01"]. *)
Definition existing_pdfs (unicode_lower : str -> str) (listing : list str)
    : list str :=
  filter (fun f => endswith (lower unicode_lower f) (lit ".pdf")) listing.

Definition deduplicate (new_file_name : str) (existing_pdfs : list str) : str :=
  if existsb (str_eqb (new_file_name ++ lit ".pdf")) existing_pdfs
  then new_file_name ++ lit "_01"
  else new_file_name.

Section Batch.

Variable encode : str -> list N.
Variable unicode_lower : str -> str.

(** The clock and the chat-completion service as they answer while the
    [i]-th entry of the batch is processed; the service returns the
    message content or fails ([None]). *)
Variable gmtime : nat -> struct_time.
Variable chat_completion : nat -> str -> option str.

(** [pdfs_to_text_string(filepath)]. *)
Definition pdfs_to_text_string (fuel : nat) (d : directory) (filepath : str)
    : outcome str :=
  file <- lift_option FileNotFoundError (lookup d filepath) ;;
  pages <- lift_option PdfReadError (f_pdf file) ;;
  let content := match pages with page :: _ => page | [] => [] end in
  let content :=
    if negb (truthy (strip content)) then placeholder else content in
  fit_to_budget encode fuel max_length content.

(** [get_new_filename_from_openai(pdf_content)]. *)
Definition get_new_filename_from_openai (i : nat) (pdf_content : str)
    : outcome str :=
  response <- lift_option APIError (chat_completion i pdf_content) ;;
  let initial_filename := strip response in
  Return (validate_and_trim_filename (gmtime i) (Some initial_filename)).

(** The body of the [for] loop for one entry. *)
Definition rename_one (fuel : nat) (i : nat) (w : world) (filename : str)
    : batch_result :=
  if endswith (lower unicode_lower filename) (lit ".pdf") then
    let w := print w (Reading filename) in
    match pdfs_to_text_string fuel (w_dir w) filename with
    | Return pdf_content =>
        match get_new_filename_from_openai i pdf_content with
        | Return new_file_name =>
            let existing := existing_pdfs unicode_lower (listdir (w_dir w)) in
            let new_file_name := deduplicate new_file_name existing in
            let new_filepath := new_file_name ++ lit ".pdf" in
            match os_rename (w_dir w) filename new_filepath with
            | Some d' =>
                Finished {| w_dir := d'; w_out := w_out w ++ [Renamed new_filepath] |}
            | None => Finished (print w RenameError)
            end
        | Raise e => Uncaught e w
        | OutOfFuel => Diverged
        end
    | Raise e => Uncaught e w
    | OutOfFuel => Diverged
    end
  else Finished w.

Fixpoint rename_loop (fuel : nat) (i : nat) (w : world) (files : list str)
    : batch_result :=
  match files with
  | [] => Finished w
  | filename :: rest =>
      match rename_one fuel i w filename with
      | Finished w' => rename_loop fuel (S i) w' rest
      | r => r
      end
  end.

(** [rename_pdfs_in_directory(directory)]. *)
Definition rename_pdfs_in_directory (fuel : nat) (w : world) : batch_result :=
  let files := listdir (sort_newest_first (filter f_isfile (w_dir w))) in
  rename_loop fuel 0 w files.

End Batch.

(** ** Concrete collaborators for the examples *)

Definition tm_example : struct_time :=
  {| tm_year := 2024; tm_mon := 3; tm_mday := 9;
     tm_hour := 7; tm_min := 5; tm_sec := 0 |}.

(** A tokenizer with one token per character. *)
Definition encode_chars (s : str) : list N := s.

(** Case tables that leave non-ASCII strings alone. *)
Definition lower_keep (s : str) : str := s.

(** The timestamp in the spec's words: year, month, day, hour, minute and
    second, each at its fixed width, zero-padded, with no separator. *)
Definition timestamp14 (tm : struct_time) : str :=
  fixed_width 4 (tm_year tm) ++ fixed_width 2 (tm_mon tm)
  ++ fixed_width 2 (tm_mday tm) ++ fixed_width 2 (tm_hour tm)
  ++ fixed_width 2 (tm_min tm) ++ fixed_width 2 (tm_sec tm).

Definition blank_pdf : file :=
  {| f_name := lit "a.pdf"; f_mtime := 0; f_isfile := true;
     f_pdf := Some [lit "  " ++ [10%N; 9%N]] |}.

Definition is_alnum (c : char) : bool :=
  (is_upper_ascii c || is_lower_ascii c || is_digit c)%bool.

Definition sixty_alnum : str :=
  lit "abcdefghijklmnopqrstuvwxyzABCDEFGHIJKLMNOPQRSTUVWXYZ01234567".

Definition fifty_alnum : str :=
  lit "abcdefghijklmnopqrstuvwxyzABCDEFGHIJKLMNOPQRSTUVWX".

Definition invoice_pdf : file :=
  {| f_name := lit "a.pdf"; f_mtime := 2; f_isfile := true;
     f_pdf := Some [lit "Invoice #4521 from Acme Corp"] |}.

Definition report_pdf : file :=
  {| f_name := lit "b.pdf"; f_mtime := 1; f_isfile := true;
     f_pdf := Some [lit "Quarterly report"] |}.

Definition notes_txt : file :=
  {| f_name := lit "notes.txt"; f_mtime := 5; f_isfile := true;
     f_pdf := None |}.

(** A service that fails on the request for the invoice and answers the
    others. *)
Definition service_fails_once (i : nat) (pdf_content : str) : option str :=
  if str_eqb pdf_content (lit "Invoice #4521 from Acme Corp") then None
  else Some (lit "Acme_Invoice_4521").

Definition service_up (i : nat) (pdf_content : str) : option str :=
  Some (lit "Acme_Invoice_4521").

Definition taken_name : file :=
  {| f_name := lit "Acme_Invoice_4521.pdf"; f_mtime := 0; f_isfile := true;
     f_pdf := Some [lit "older"] |}.

(** A directory that sits where the suffixed name would go. *)
Definition blocking_dir : file :=
  {| f_name := lit "Acme_Invoice_4521_01.pdf"; f_mtime := 0; f_isfile := false;
     f_pdf := None |}.

(** ** Measures used in the further properties *)

(** The length the loop body leaves of a content of length [n]. *)
Definition floor_0_9 (n : Z) : Z := 9 * n / 10.

(** The number of passes after which any content shorter than [2^49]
    characters is empty. *)
Definition max_passes : nat := 306.

(** [l1] is an initial segment of [l2]. *)
Definition is_prefix (l1 l2 : str) : Prop := exists k, l1 = firstn k l2.


(** The text has a character that is not whitespace. *)
Definition has_ink (s : str) : bool :=
  existsb (fun c => negb (is_whitespace c)) s.

(** The first page of every entry has fewer than [2^49] characters. *)
Definition pages_short (d : directory) : Prop :=
  forall y page rest,
    In y d -> f_pdf y = Some (page :: rest) -> len page < 2 ^ 49.

(** The run ended, normally or by an exception, with this world. *)
Definition ends_with (P : world -> Prop) (r : batch_result) : Prop :=
  match r with
  | Finished w | Uncaught _ w => P w
  | Diverged => True
  end.

(** The paths announced by ["Reading file"], in the order printed. *)
Definition readings (out : list event) : list str :=
  flat_map (fun e => match e with Reading filepath => [filepath] | _ => [] end)
           out.

(** The name is taken for a PDF by the loop and by the collision check. *)
Definition is_pdf_name (unicode_lower : str -> str) (name : str) : bool :=
  endswith (lower unicode_lower name) (lit ".pdf").

(* ================================================================== *)
(** * Facts about the floating-point step *)
(* ================================================================== *)

(** The number of binary digits, rounding to nearest even and the
    conversion of an [int] are unfolded far enough to compute
    [int(n * 0.9)] exactly for every [n] below [2^49]. *)

Import Float64.

Lemma digits2_pos_size p : digits2_pos p = Pos.size p.
Proof. induction p; simpl; congruence. Qed.

Lemma Zdigits2_bounds p :
  2 ^ (Zdigits2 (Z.pos p) - 1) <= Z.pos p < 2 ^ Zdigits2 (Z.pos p).
Proof.
  cbn [Zdigits2]. rewrite digits2_pos_size.
  pose proof (Pos.size_gt p) as Hgt. pose proof (Pos.size_le p) as Hle.
  apply Pos2Z.pos_lt_pos in Hgt. apply Pos2Z.pos_le_pos in Hle.
  rewrite Pos2Z.inj_pow in Hgt, Hle.
  set (d := Z.pos (Pos.size p)) in *.
  assert (Hs : 2 ^ d = 2 * 2 ^ (d - 1)).
  { rewrite <- Z.pow_succ_r by (subst d; lia). f_equal. lia. }
  lia.
Qed.

Lemma Zdigits2_unique p d :
  2 ^ (d - 1) <= Z.pos p < 2 ^ d -> Zdigits2 (Z.pos p) = d.
Proof.
  intros [Hlo Hhi]. pose proof (Zdigits2_bounds p) as [Hlo' Hhi'].
  set (D := Zdigits2 (Z.pos p)) in *.
  assert (0 < D) by (subst D; cbn [Zdigits2]; lia).
  assert (0 < d).
  { destruct (Z_lt_le_dec 0 d); auto.
    assert (2 ^ d <= 2 ^ 0) by (destruct (Z_lt_le_dec d 0); [rewrite Z.pow_neg_r by lia; simpl; lia | apply Z.pow_le_mono_r; lia]).
    simpl in *. lia. }
  destruct (Z_lt_le_dec D d).
  - assert (2 ^ D <= 2 ^ (d - 1)) by (apply Z.pow_le_mono_r; lia). lia.
  - destruct (Z_lt_le_dec d D); [|lia].
    assert (2 ^ d <= 2 ^ (D - 1)) by (apply Z.pow_le_mono_r; lia). lia.
Qed.

Lemma iter_pos_nat {A} (f : A -> A) p x :
  iter_pos f p x = Nat.iter (Pos.to_nat p) f x.
Proof.
  revert x. induction p; intros x; cbn [iter_pos].
  - rewrite !IHp. rewrite Pos2Nat.inj_xI. 
    replace (S (2 * Pos.to_nat p))%nat with (Pos.to_nat p + (Pos.to_nat p + 1))%nat by lia.
    rewrite !Nat.iter_add. reflexivity.
  - rewrite !IHp. rewrite Pos2Nat.inj_xO.
    replace (2 * Pos.to_nat p)%nat with (Pos.to_nat p + Pos.to_nat p)%nat by lia.
    rewrite Nat.iter_add. reflexivity.
  - reflexivity.
Qed.

Lemma shr_1_nonneg m r s :
  0 <= m ->
  shr_m (shr_1 {| shr_m := m; shr_r := r; shr_s := s |}) = m / 2 /\
  shr_r (shr_1 {| shr_m := m; shr_r := r; shr_s := s |}) = Z.odd m.
Proof.
  intros Hm. destruct m as [|p|p]; [split; reflexivity| |lia].
  destruct p; simpl; split; try reflexivity.
  - rewrite Pos2Z.inj_xI. apply Z.div_unique with (r := 1); lia.
  - rewrite Pos2Z.inj_xO. apply Z.div_unique with (r := 0); lia.
Qed.

Lemma shr_iter_nonneg k mrs :
  0 <= shr_m mrs ->
  let R := Nat.iter (S k) shr_1 mrs in
  shr_m R = shr_m mrs / 2 ^ Z.of_nat (S k) /\
  shr_r R = Z.odd (shr_m mrs / 2 ^ Z.of_nat k).
Proof.
  intros Hm. induction k.
  - cbv zeta. change (Nat.iter 1 shr_1 mrs) with (shr_1 mrs).
    destruct mrs as [m r s]. cbn [shr_m] in Hm |- *.
    destruct (shr_1_nonneg m r s Hm) as [H1 H2]. rewrite H1, H2.
    change (2 ^ Z.of_nat 0) with 1. rewrite Z.div_1_r. auto.
  - cbv zeta in *. destruct IHk as [IH1 IH2].
    rewrite Nat.iter_succ.
    destruct (Nat.iter (S k) shr_1 mrs) as [m r s] eqn:E. cbn [shr_m shr_r] in IH1, IH2.
    assert (0 <= m) by (subst m; apply Z.div_pos; lia).
    destruct (shr_1_nonneg m r s H) as [H1 H2]. rewrite H1, H2.
    subst m. split.
    + rewrite Z.div_div by lia. f_equal.
      rewrite (Nat2Z.inj_succ (S k)). rewrite Z.pow_succ_r by lia. lia.
    + reflexivity.
Qed.

Lemma shr_nonneg m e p :
  0 <= m ->
  exists R, shr {| shr_m := m; shr_r := false; shr_s := false |} e (Z.pos p) = (R, e + Z.pos p)
    /\ shr_m R = m / 2 ^ Z.pos p
    /\ shr_r R = Z.odd (m / 2 ^ (Z.pos p - 1)).
Proof.
  intros Hm. unfold shr. eexists; split; [reflexivity|].
  rewrite iter_pos_nat.
  destruct (Pos2Nat.is_succ p) as [k Hk]. rewrite Hk.
  pose proof (shr_iter_nonneg k {| shr_m := m; shr_r := false; shr_s := false |} Hm) as H.
  cbv zeta in H.
  change (shr_m {| shr_m := m; shr_r := false; shr_s := false |}) with m in H.
  assert (Hp : Z.pos p = Z.of_nat (S k)) by lia.
  rewrite Hp. replace (Z.of_nat (S k) - 1) with (Z.of_nat k) by lia. exact H.
Qed.

Lemma round_nearest_even_cases R :
  let q' := round_nearest_even (shr_m R) (loc_of_shr_record R) in
  q' = shr_m R \/ (q' = shr_m R + 1 /\ shr_r R = true).
Proof.
  destruct R as [m [|] [|]]; cbn; auto.
  destruct (Z.even m); auto.
Qed.

Lemma shr_fexp_exact m e :
  Zdigits2 m = 53 -> -1074 <= e ->
  shr_fexp 53 1024 m e loc_Exact = ({| shr_m := m; shr_r := false; shr_s := false |}, e).
Proof.
  intros Hd He. unfold shr_fexp. rewrite Hd. unfold fexp, emin.
  replace (Z.max (53 + e - 53) (3 - 1024 - 53) - e) with 0 by lia.
  reflexivity.
Qed.

Lemma binary_round_aux_spec p ex :
  let D := Zdigits2 (Z.pos p) in
  53 < D -> -1074 <= D + ex - 53 -> D + ex - 53 < 971 ->
  exists m e q',
    binary_round_aux 53 1024 false (Z.pos p) ex loc_Exact = S754_finite false m e
    /\ (q' = Z.pos p / 2 ^ (D - 53)
        \/ (q' = Z.pos p / 2 ^ (D - 53) + 1 /\ Z.odd (Z.pos p / 2 ^ (D - 53 - 1)) = true))
    /\ ex + (D - 53) <= e <= ex + (D - 53) + 1
    /\ Z.pos m * 2 ^ (e - (ex + (D - 53))) = q'.
Proof.
  intros D HD Hlo Hhi.
  pose proof (Zdigits2_bounds p) as Hb. fold D in Hb.
  unfold binary_round_aux.
  set (s := D - 53) in *.
  assert (Hs : exists sp, s = Z.pos sp) by (exists (Z.to_pos s); lia).
  destruct Hs as [sp Hsp].
  unfold shr_fexp at 1. fold D. cbn [shr_record_of_loc].
  replace (fexp 53 1024 (D + ex) - ex) with (Z.pos sp) by (unfold fexp, emin; lia).
  destruct (shr_nonneg (Z.pos p) ex sp) as (R & HR & Hm & Hr); [lia|].
  rewrite HR. rewrite <- Hsp in *.
  pose proof (round_nearest_even_cases R) as Hq. cbv zeta in Hq.
  set (q' := round_nearest_even (shr_m R) (loc_of_shr_record R)) in *.
  rewrite Hm, Hr in Hq.
  (* the quotient has exactly 53 digits *)
  assert (Hpow : 2 ^ D = 2 ^ 53 * 2 ^ s).
  { rewrite <- Z.pow_add_r by lia. f_equal. lia. }
  assert (Hpow' : 2 ^ (D - 1) = 2 ^ 52 * 2 ^ s).
  { rewrite <- Z.pow_add_r by lia. f_equal. lia. }
  assert (Hs0 : 0 < 2 ^ s) by (apply Z.pow_pos_nonneg; lia).
  assert (Hq1 : 2 ^ 52 <= Z.pos p / 2 ^ s).
  { apply Z.div_le_lower_bound; lia. }
  assert (Hq2 : Z.pos p / 2 ^ s < 2 ^ 53).
  { apply Z.div_lt_upper_bound; lia. }
  assert (Hq' : 2 ^ 52 <= q' <= 2 ^ 53) by lia.
  destruct (Z.eq_dec q' (2 ^ 53)) as [Hc | Hc].
  - (* the mantissa carried into a 54th bit *)
    rewrite Hc.
    unfold shr_fexp. change (Zdigits2 (2 ^ 53)) with 54.
    replace (fexp 53 1024 (54 + (ex + s)) - (ex + s)) with 1 by (unfold fexp, emin; lia).
    cbn [shr_record_of_loc shr iter_pos]. 
    change (shr_1 {| shr_m := 2 ^ 53; shr_r := false; shr_s := false |})
      with {| shr_m := 2 ^ 52; shr_r := false; shr_s := false |}.
    cbn [shr_m]. change (2 ^ 52) with (Z.pos 4503599627370496).
    cbv iota beta.
    replace (ex + s + 1 <=? 1024 - 53) with true by (symmetry; apply Z.leb_le; lia).
    exists 4503599627370496%positive, (ex + s + 1), q'.
    split; [reflexivity|]. split; [exact Hq|]. split; [lia|].
    replace (ex + s + 1 - (ex + s)) with 1 by lia. rewrite Hc. reflexivity.
  - assert (Hq'' : 2 ^ 52 <= q' < 2 ^ 53) by lia.
    destruct q' as [|qp|qp] eqn:Eq; try (exfalso; lia).
    rewrite shr_fexp_exact; [| apply Zdigits2_unique; exact Hq'' | lia].
    cbn [shr_m]. 
    replace (ex + s <=? 1024 - 53) with true by (symmetry; apply Z.leb_le; lia).
    exists qp, (ex + s), (Z.pos qp).
    split; [reflexivity|]. split; [exact Hq|]. split; [lia|].
    rewrite Z.sub_diag. lia.
Qed.

Lemma pos_iter_xO p k : Z.pos (Pos.iter xO p k) = Z.pos p * 2 ^ Z.pos k.
Proof.
  rewrite (Pos.iter_swap_gen _ _ Z.pos xO (Z.mul 2)) by reflexivity.
  change (Pos.iter (Z.mul 2) (Z.pos p) k) with (Z.shiftl (Z.pos p) (Z.pos k)).
  apply Z.shiftl_mul_pow2. lia.
Qed.

Lemma binary_normalize_small p :
  let d := Zdigits2 (Z.pos p) in
  d < 53 ->
  binary_normalize 53 1024 (Z.pos p) 0 false
  = S754_finite false (Pos.iter xO p (Z.to_pos (53 - d))) (d - 53).
Proof.
  intros d Hd. assert (0 < d) by (subst d; cbn [Zdigits2]; lia).
  cbn [binary_normalize]. unfold binary_round.
  change (Z.pos (digits2_pos p)) with d.
  unfold shl_align.
  replace (fexp 53 1024 (d + 0) - 0) with (Z.neg (Z.to_pos (53 - d)))
    by (unfold fexp, emin; lia).
  replace (fexp 53 1024 (d + 0)) with (d - 53) by (unfold fexp, emin; lia).
  set (mz := Pos.iter xO p (Z.to_pos (53 - d))).
  assert (Hmz : Z.pos mz = Z.pos p * 2 ^ (53 - d)).
  { subst mz. rewrite pos_iter_xO. f_equal. f_equal. lia. }
  assert (Hdig : Zdigits2 (Z.pos mz) = 53).
  { apply Zdigits2_unique. rewrite Hmz.
    pose proof (Zdigits2_bounds p) as Hb. fold d in Hb.
    assert (2 ^ 53 = 2 ^ d * 2 ^ (53 - d)) by (rewrite <- Z.pow_add_r by lia; f_equal; lia).
    assert (2 ^ (53 - 1) = 2 ^ (d - 1) * 2 ^ (53 - d)) by (rewrite <- Z.pow_add_r by lia; f_equal; lia).
    assert (0 < 2 ^ (53 - d)) by (apply Z.pow_pos_nonneg; lia).
    nia. }
  unfold binary_round_aux.
  rewrite shr_fexp_exact by (auto; lia).
  cbn [shr_m loc_of_shr_record round_nearest_even].
  rewrite shr_fexp_exact by (auto; lia).
  cbn [shr_m].
  replace (d - 53 <=? 1024 - 53) with true by (symmetry; apply Z.leb_le; lia).
  reflexivity.
Qed.

Lemma lit_0_9_bits : lit_0_9 = S754_finite false 8106479329266893 (-53).
Proof. vm_compute. reflexivity. Qed.

(** The arithmetic core: rounding the product to nearest cannot reach the
    next integer while [n] is below [2^49]. *)
Lemma round_then_floor n X B T q' :
  0 < n < 2 ^ 49 -> 0 < X -> 0 < B -> 0 < T ->
  T * B = X * 2 ^ 53 ->
  B <= 2 * (n * X) ->
  let M := n * X * 8106479329266893 in
  (q' = M / B \/ (q' = M / B + 1 /\ exists h, 2 * h + 1 = 2 * (M / B) + 1 /\ (2 * h + 1) * B <= 2 * M)) ->
  q' / T = 9 * n / 10.
Proof.
  intros Hn HX HB HT HTB HBn M Hq.
  set (m0 := 9 * n / 10).
  assert (Hm0 : 10 * m0 <= 9 * n < 10 * m0 + 10).
  { subst m0. pose proof (Z.div_mod (9 * n) 10 ltac:(lia)).
    pose proof (Z.mod_pos_bound (9 * n) 10 ltac:(lia)). lia. }
  change (2 ^ 49) with 562949953421312 in Hn.
  change (2 ^ 53) with 9007199254740992 in HTB.
  assert (HqB : B * (M / B) <= M < B * (M / B) + B).
  { pose proof (Z.div_mod M B ltac:(lia)).
    pose proof (Z.mod_pos_bound M B ltac:(lia)). lia. }
  set (q := M / B) in *.
  assert (Hlow : m0 * T <= q).
  { apply Z.div_le_lower_bound; [lia|].
    replace (B * (m0 * T)) with (m0 * (T * B)) by ring. rewrite HTB.
    subst M. nia. }
  assert (Hup : q' < (m0 + 1) * T).
  { destruct Hq as [-> | [-> (h & Hh & HhM)]].
    - apply Z.div_lt_upper_bound; [lia|].
      replace (B * ((m0 + 1) * T)) with ((m0 + 1) * (T * B)) by ring. rewrite HTB.
      subst M. nia.
    - destruct (Z_lt_le_dec (q + 1) ((m0 + 1) * T)) as [|Hge]; [assumption|exfalso].
      assert (H1 : (m0 + 1) * (T * B) <= (q + 1) * B) by nia.
      rewrite HTB in H1.
      assert (H2 : 2 * (q + 1) * B <= 2 * M + B) by nia.
      assert (H3 : 2 * ((m0 + 1) * (X * 9007199254740992)) <= 2 * M + 2 * (n * X)) by nia.
      subst M.
      assert (H4 : (m0 + 1) * 9007199254740992 * X <= (n * 8106479329266893 + n) * X) by nia.
      assert (H5 : (m0 + 1) * 9007199254740992 <= n * 8106479329266893 + n).
      { apply Z.mul_le_mono_pos_r with (p := X); assumption. }
      lia. }
  symmetry. apply Z.div_unique with (r := q' - T * m0).
  - left. destruct Hq as [-> | [-> _]]; nia.
  - ring.
Qed.

Lemma Zdigits2_le p d : 0 <= d -> Z.pos p < 2 ^ d -> Zdigits2 (Z.pos p) <= d.
Proof.
  intros Hd Hp. pose proof (Zdigits2_bounds p) as [Hlo _].
  destruct (Z_lt_le_dec d (Zdigits2 (Z.pos p))) as [Hlt|]; [|assumption].
  assert (2 ^ d <= 2 ^ (Zdigits2 (Z.pos p) - 1)) by (apply Z.pow_le_mono_r; lia).
  lia.
Qed.

Lemma Zdigits2_ge p d : 0 <= d -> 2 ^ d <= Z.pos p -> d < Zdigits2 (Z.pos p).
Proof.
  intros Hd Hp. pose proof (Zdigits2_bounds p) as [_ Hhi].
  destruct (Z_lt_le_dec d (Zdigits2 (Z.pos p))) as [|Hle]; [assumption|].
  assert (2 ^ Zdigits2 (Z.pos p) <= 2 ^ d).
  { apply Z.pow_le_mono_r; [lia | assumption]. }
  lia.
Qed.

Lemma int_mul_0_9_floor n :
  0 <= n < 2 ^ 49 -> int_mul_0_9 n = Some (9 * n / 10).
Proof.
  intros Hn. destruct n as [|p|p]; [reflexivity| |lia].
  unfold int_mul_0_9, float_of_int, prec, emax.
  set (d := Zdigits2 (Z.pos p)).
  assert (Hd0 : 0 < d) by (subst d; cbn [Zdigits2]; lia).
  assert (Hd : d <= 49) by (apply Zdigits2_le; lia).
  pose proof (Zdigits2_bounds p) as Hb. fold d in Hb.
  rewrite binary_normalize_small by (fold d; lia). fold d.
  set (mz := Pos.iter xO p (Z.to_pos (53 - d))).
  assert (Hmz : Z.pos mz = Z.pos p * 2 ^ (53 - d)).
  { subst mz. rewrite pos_iter_xO. do 2 f_equal. lia. }
  set (X := 2 ^ (53 - d)) in *.
  assert (HX : 0 < X) by (apply Z.pow_pos_nonneg; lia).
  assert (HXd : 2 ^ (d - 1) * X = 2 ^ 52).
  { subst X. rewrite <- Z.pow_add_r by lia. f_equal. lia. }
  assert (HXd' : 2 ^ d * X = 2 ^ 53).
  { subst X. rewrite <- Z.pow_add_r by lia. f_equal. lia. }
  rewrite lit_0_9_bits. unfold mul, prec, emax. cbn [SFmul xorb].
  set (M := (mz * 8106479329266893)%positive).
  assert (HM : Z.pos M = Z.pos p * X * 8106479329266893).
  { subst M. rewrite Pos2Z.inj_mul, Hmz. reflexivity. }
  assert (HMlo : 2 ^ 104 <= Z.pos M).
  { rewrite HM. change (2 ^ 52) with 4503599627370496 in HXd.
    assert (4503599627370496 <= Z.pos p * X) by nia.
    change (2 ^ 104) with (4503599627370496 * 4503599627370496). nia. }
  assert (HMhi : Z.pos M < 2 ^ 106).
  { rewrite HM. change (2 ^ 53) with 9007199254740992 in HXd'.
    assert (Z.pos p * X < 9007199254740992) by nia.
    change (2 ^ 106) with (9007199254740992 * 9007199254740992). nia. }
  assert (HD1 : 104 < Zdigits2 (Z.pos M)) by (apply Zdigits2_ge; lia).
  assert (HD2 : Zdigits2 (Z.pos M) <= 106) by (apply Zdigits2_le; lia).
  destruct (binary_round_aux_spec M (d - 53 + -53)) as (m & e & q' & Hr & Hq & He & Hv);
    [lia | lia | lia |].
  rewrite Hr. cbn [int_of_float].
  set (D := Zdigits2 (Z.pos M)) in *.
  set (s := D - 53) in *.
  set (E := d - 53 + -53 + s) in *.
  assert (HE : E < -3) by (subst E s; lia).
  replace (0 <=? e) with false by (symmetry; apply Z.leb_gt; lia).
  f_equal.
  set (T := 2 ^ (- E)).
  assert (HT : 0 < T) by (apply Z.pow_pos_nonneg; lia).
  assert (HB : 0 < 2 ^ s) by (apply Z.pow_pos_nonneg; subst s; lia).
  (* the stored mantissa, read at exponent [E], is [q'] *)
  assert (Hm : Z.pos m / 2 ^ (- e) = q' / T).
  { assert (e = E \/ e = E + 1) as [-> | ->] by lia.
    - rewrite Z.sub_diag in Hv. change (2 ^ 0) with 1 in Hv. rewrite Z.mul_1_r in Hv.
      subst q'. reflexivity.
    - replace (E + 1 - E) with 1 in Hv by lia. change (2 ^ 1) with 2 in Hv.
      assert (HT2 : T = 2 ^ (- (E + 1)) * 2).
      { subst T. replace (- E) with (- (E + 1) + 1) by lia.
        rewrite Z.pow_add_r by lia. reflexivity. }
      rewrite HT2, <- Hv. rewrite Z.div_mul_cancel_r; [reflexivity| |lia].
      apply Z.pow_nonzero; lia. }
  rewrite Hm.
  apply (round_then_floor (Z.pos p) X (2 ^ s) T q'); try assumption; try lia.
  - subst T. rewrite <- Z.pow_add_r by (subst s; lia).
    subst X. rewrite <- Z.pow_add_r by lia. f_equal. subst E s. lia.
  - assert (2 ^ s <= 2 ^ 53) by (apply Z.pow_le_mono_r; subst s; lia).
    change (2 ^ 53) with (2 * 2 ^ 52) in H. rewrite <- HXd in H. nia.
  - cbv zeta. rewrite <- HM.
    destruct Hq as [Hq | [Hq Hodd]]; [left; exact Hq | right; split; [exact Hq|]].
    set (h := Z.pos M / 2 ^ (s - 1)) in *.
    assert (Hs2 : 2 ^ s = 2 ^ (s - 1) * 2).
    { replace s with (s - 1 + 1) at 1 by lia. rewrite Z.pow_add_r by (subst s; lia). reflexivity. }
    assert (Hh2 : Z.pos M / 2 ^ s = h / 2).
    { rewrite Hs2. subst h. rewrite Z.div_div; [reflexivity| |lia].
      apply Z.pow_nonzero; subst s; lia. }
    assert (Hhodd : h = 2 * (h / 2) + 1).
    { pose proof (Z.div_mod h 2 ltac:(lia)) as Hdm.
      rewrite Zmod_odd, Hodd in Hdm. exact Hdm. }
    exists (h / 2). split; [rewrite Hh2; reflexivity|].
    rewrite <- Hhodd. rewrite Hs2.
    assert (0 < 2 ^ (s - 1)) by (apply Z.pow_pos_nonneg; subst s; lia).
    pose proof (Z.mul_div_le (Z.pos M) (2 ^ (s - 1)) ltac:(lia)) as Hle. fold h in Hle.
    nia.
Qed.

(** Beyond that range the product is no longer the floor: at [2^53] the
    rounding of the product gives one more than [floor(0.9 * n)]. *)
Example int_mul_0_9_large :
  int_mul_0_9 (2 ^ 53) = Some 8106479329266893
  /\ 9 * 2 ^ 53 / 10 = 8106479329266892.
Proof. split; vm_compute; reflexivity. Qed.

Example int_mul_0_9_small :
  map int_mul_0_9 [0; 1; 9; 10; 11; 100] =
  [Some 0; Some 0; Some 8; Some 9; Some 9; Some 90].
Proof. vm_compute. reflexivity. Qed.

(* ================================================================== *)
(** * The content budgeter: termination and the budget *)
(* ================================================================== *)

Lemma gtb_false a b : a <= b -> (a >? b) = false.
Proof. intros H. rewrite Z.gtb_ltb. apply Z.ltb_ge. assumption. Qed.

Lemma gtb_true a b : b < a -> (a >? b) = true.
Proof. intros H. rewrite Z.gtb_ltb. apply Z.ltb_lt. assumption. Qed.

Lemma len_nonneg {A} (s : list A) : 0 <= len s.
Proof. unfold len. lia. Qed.

Lemma len_nil_iff {A} (s : list A) : len s = 0 <-> s = [].
Proof.
  unfold len. destruct s; cbn [length]; split; intros H;
    try reflexivity; try discriminate; lia.
Qed.

Lemma slice_to_prefix s k :
  0 <= k <= len s -> len (slice_to s k) = k.
Proof.
  intros [Hk Hs]. unfold slice_to, len in *.
  replace (0 <=? k) with true by (symmetry; apply Z.leb_le; assumption).
  rewrite length_firstn. lia.
Qed.

(** One pass of the loop body keeps the first [floor(0.9 * len)]
    characters. *)
Lemma shrink_floor content :
  len content < 2 ^ 49 ->
  shrink content = Return (slice_to content (9 * len content / 10)).
Proof.
  intros Hlen. unfold shrink.
  rewrite int_mul_0_9_floor by (pose proof (len_nonneg content); lia).
  reflexivity.
Qed.

Lemma floor_0_9_bounds n : 0 <= n -> 0 <= 9 * n / 10 <= n.
Proof.
  intros Hn. pose proof (Z.div_mod (9 * n) 10 ltac:(lia)).
  pose proof (Z.mod_pos_bound (9 * n) 10 ltac:(lia)). lia.
Qed.

Lemma floor_0_9_lt n : 0 < n -> 9 * n / 10 < n.
Proof.
  intros Hn. pose proof (Z.div_mod (9 * n) 10 ltac:(lia)).
  pose proof (Z.mod_pos_bound (9 * n) 10 ltac:(lia)). lia.
Qed.

Lemma shrink_len content :
  len content < 2 ^ 49 ->
  exists content',
    shrink content = Return content' /\ len content' = 9 * len content / 10.
Proof.
  intros Hlen. eexists. split; [apply shrink_floor; assumption|].
  apply slice_to_prefix. apply floor_0_9_bounds, len_nonneg.
Qed.

Section BudgeterFacts.

Variable encode : str -> list N.

(** The tokenizer gives no token for the empty text. *)
Hypothesis encode_nil : encode [] = [].

Variable max_tokens : Z.
Hypothesis max_tokens_pos : 0 < max_tokens.

(** The loop returns, with the same result for every sufficient number
    of allowed iterations, and the result is under budget unless the
    loop never ran. *)
Lemma content_token_cut_total n :
  forall content num_tokens,
    (length content <= n)%nat -> len content < 2 ^ 49 ->
    exists r,
      (forall fuel, (n < fuel)%nat ->
         content_token_cut encode fuel content num_tokens max_tokens = Return r)
      /\ ((num_tokens <= max_tokens /\ r = content)
          \/ len (encode r) <= max_tokens).
Proof.
  induction n as [|n IH]; intros content num_tokens Hn Hlen.
  - (* the content is empty *)
    assert (content = []) by (destruct content; [reflexivity | cbn in Hn; lia]).
    subst content.
    destruct (Z_le_gt_dec num_tokens max_tokens) as [Hle | Hgt].
    + exists []. split; [|left; auto].
      intros fuel _. destruct fuel; cbn [content_token_cut];
        replace (num_tokens >? max_tokens) with false
          by (symmetry; apply gtb_false; lia); reflexivity.
    + exists []. split; [|right; rewrite encode_nil; cbn; lia].
      intros fuel Hf. destruct fuel as [|fuel]; [lia|].
      cbn [content_token_cut].
      replace (num_tokens >? max_tokens) with true
        by (symmetry; apply gtb_true; lia).
      destruct (shrink_len [] Hlen) as (content' & Hs & Hl).
      change (9 * len (@nil char) / 10) with 0 in Hl.
      apply len_nil_iff in Hl. subst content'.
      rewrite Hs. cbn [bind]. rewrite encode_nil.
      destruct fuel; cbn [content_token_cut];
        replace (len (@nil N) >? max_tokens) with false
          by (symmetry; apply gtb_false; cbn; lia); reflexivity.
  - destruct (Z_le_gt_dec num_tokens max_tokens) as [Hle | Hgt].
    + exists content. split; [|left; auto].
      intros fuel _. destruct fuel; cbn [content_token_cut];
        replace (num_tokens >? max_tokens) with false
          by (symmetry; apply gtb_false; lia); reflexivity.
    + destruct (shrink_len content Hlen) as (content' & Hs & Hl).
      pose proof (len_nonneg content) as Hc0.
      assert (Hshort : (length content' <= n)%nat).
      { destruct (Z.eq_dec (len content) 0) as [Hz | Hnz].
        - rewrite Hz in Hl. change (9 * 0 / 10) with 0 in Hl.
          unfold len in Hl. lia.
        - pose proof (floor_0_9_lt (len content) ltac:(lia)).
          unfold len in *. lia. }
      assert (Hlen' : len content' < 2 ^ 49).
      { pose proof (floor_0_9_bounds (len content) Hc0). lia. }
      destruct (IH content' (len (encode content')) Hshort Hlen')
        as (r & Hrun & Hr).
      exists r. split.
      * intros fuel Hf. destruct fuel as [|fuel]; [lia|].
        cbn [content_token_cut].
        replace (num_tokens >? max_tokens) with true
          by (symmetry; apply gtb_true; lia).
        rewrite Hs. cbn [bind]. apply Hrun. lia.
      * right. destruct Hr as [[Hle ->] | Hr]; assumption.
Qed.

(** The budgeting step returns, and what it returns is under budget. *)
Lemma fit_to_budget_total content :
  len content < 2 ^ 49 ->
  exists r,
    (forall fuel, (length content < fuel)%nat ->
       fit_to_budget encode fuel max_tokens content = Return r)
    /\ len (encode r) <= max_tokens.
Proof.
  intros Hlen. unfold fit_to_budget.
  destruct (Z_le_gt_dec (len (encode content)) max_tokens) as [Hle | Hgt].
  - exists content. split; [|assumption]. intros fuel _.
    replace (len (encode content) >? max_tokens) with false
      by (symmetry; apply gtb_false; lia).
    reflexivity.
  - destruct (content_token_cut_total (length content) content
                (len (encode content)) (le_n _) Hlen) as (r & Hrun & Hr).
    exists r. split.
    + intros fuel Hf.
      replace (len (encode content) >? max_tokens) with true
        by (symmetry; apply gtb_true; lia).
      apply Hrun. assumption.
    + destruct Hr as [[Hle _] | Hr]; [lia | assumption].
Qed.

End BudgeterFacts.

Lemma lstrip_blank s : forallb is_whitespace s = true -> lstrip s = [].
Proof.
  induction s as [|c t IH]; cbn [forallb lstrip]; [reflexivity|].
  intros H. apply andb_true_iff in H as [Hc Ht]. rewrite Hc. auto.
Qed.

Lemma strip_blank s : forallb is_whitespace s = true -> strip s = [].
Proof. intros H. unfold strip. rewrite (lstrip_blank s H). reflexivity. Qed.

Lemma encode_chars_bytes s : len (encode_chars s) <= utf8_len s.
Proof.
  unfold encode_chars, len.
  induction s as [|c t IH]; cbn [length utf8_len fold_right]; [lia|].
  fold (utf8_len t).
  assert (1 <= utf8_len_char c)
    by (unfold utf8_len_char; repeat destruct (N.ltb _ _); lia).
  lia.
Qed.

Example fit_to_budget_run :
  fit_to_budget encode_chars 11 5 (lit "0123456789") = Return (lit "01234").
Proof. vm_compute. reflexivity. Qed.

(** C4.  The shrink loop of [content_token_cut] terminates for every
    content and every [max_tokens > 0]: a pass over non-empty content
    keeps [floor(0.9 * len)] characters, strictly fewer than before; the
    empty content has no token, so the loop condition fails there without
    any test on the length; and the loop returns within [len + 1]
    passes whatever token count it is entered with. *)
Theorem content_token_cut_terminates (encode : str -> list N)
    (content : str) (max_tokens : Z) :
  encode [] = [] -> 0 < max_tokens -> len content < 2 ^ 49 ->
  (content <> [] ->
     exists content',
       shrink content = Return content'
       /\ len content' = 9 * len content / 10
       /\ len content' < len content)
  /\ (len (encode []) = 0 /\ (len (encode []) >? max_tokens) = false)
  /\ (forall num_tokens,
        exists r, forall fuel, (length content < fuel)%nat ->
          content_token_cut encode fuel content num_tokens max_tokens = Return r).
Proof.
  intros Hnil Hpos Hlen. split; [|split].
  - intros Hne. destruct (shrink_len content Hlen) as (content' & Hs & Hl).
    exists content'. split; [exact Hs|]. split; [exact Hl|].
    rewrite Hl. apply floor_0_9_lt.
    pose proof (len_nonneg content).
    destruct (Z.eq_dec (len content) 0) as [Hz|]; [|lia].
    apply len_nil_iff in Hz. contradiction.
  - rewrite Hnil. split; [reflexivity|]. apply gtb_false. cbn. lia.
  - intros num_tokens.
    destruct (content_token_cut_total encode Hnil max_tokens Hpos
                (length content) content num_tokens (le_n _) Hlen)
      as (r & Hrun & _).
    exists r. exact Hrun.
Qed.

Lemma content_token_cut_terminates_witness :
  (lit "0123456789" <> [] ->
     exists content',
       shrink (lit "0123456789") = Return content'
       /\ len content' = 9 * len (lit "0123456789") / 10
       /\ len content' < len (lit "0123456789"))
  /\ (len (encode_chars []) = 0 /\ (len (encode_chars []) >? 5) = false)
  /\ (forall num_tokens,
        exists r, forall fuel, (length (lit "0123456789") < fuel)%nat ->
          content_token_cut encode_chars fuel (lit "0123456789") num_tokens 5
          = Return r).
Proof.
  apply (content_token_cut_terminates encode_chars (lit "0123456789") 5);
    [reflexivity | lia | vm_compute; reflexivity].
Defined.

(** Without the condition on the tokenizer the loop need not stop: with a
    tokenizer that always reports two tokens and a budget of one, no
    number of passes is enough. *)
Example content_token_cut_may_diverge :
  forall fuel, content_token_cut (fun _ => [0; 0]%N) fuel [] 2 1 = OutOfFuel.
Proof.
  induction fuel as [|fuel IH]; [reflexivity|].
  cbn [content_token_cut]. change (2 >? 1) with true. cbv iota.
  rewrite shrink_floor by (vm_compute; reflexivity).
  cbn [bind]. exact IH.
Qed.

Lemma under_budget_unchanged (encode : str -> list N) fuel content max_tokens :
  len (encode content) <= max_tokens ->
  fit_to_budget encode fuel max_tokens content = Return content.
Proof.
  intros Hle. unfold fit_to_budget. rewrite (gtb_false _ _ Hle). reflexivity.
Qed.



(** C8.  When the text of the first page is empty or consists of
    whitespace only (or there is no page), [pdfs_to_text_string] replaces
    it by the placeholder before the tokens are counted, and under the
    budget of 15000 tokens the placeholder is returned whole.  A token
    covers at least one byte of the text. *)
Theorem blank_content_gives_placeholder (encode : str -> list N)
    (fuel : nat) (d : directory) (filepath : str) (f : file)
    (pages : list str) :
  (forall s, len (encode s) <= utf8_len s) ->
  lookup d filepath = Some f -> f_pdf f = Some pages ->
  forallb is_whitespace (match pages with page :: _ => page | [] => [] end)
    = true ->
  pdfs_to_text_string encode fuel d filepath
    = fit_to_budget encode fuel max_length placeholder
  /\ fit_to_budget encode fuel max_length placeholder = Return placeholder.
Proof.
  intros Hbytes Hlook Hpdf Hblank. split.
  - unfold pdfs_to_text_string. rewrite Hlook. cbn [lift_option bind].
    rewrite Hpdf. cbn [lift_option bind].
    rewrite (strip_blank _ Hblank). reflexivity.
  - apply under_budget_unchanged.
    pose proof (Hbytes placeholder) as Hp.
    change (utf8_len placeholder) with 45 in Hp. unfold max_length. lia.
Qed.

Lemma blank_content_gives_placeholder_witness :
  pdfs_to_text_string encode_chars 0 [blank_pdf] (lit "a.pdf")
    = fit_to_budget encode_chars 0 max_length placeholder
  /\ fit_to_budget encode_chars 0 max_length placeholder = Return placeholder.
Proof.
  apply (blank_content_gives_placeholder encode_chars 0 [blank_pdf]
           (lit "a.pdf") blank_pdf [lit "  " ++ [10%N; 9%N]]
           encode_chars_bytes);
    reflexivity.
Defined.

(* ================================================================== *)
(** * The filename sanitiser: shape of the result *)
(* ================================================================== *)

Ltac zdiv := Z.to_euclidean_division_equations; lia.

(** Two lists of digits are equal when the numbers printed are. *)
Ltac digits_eq :=
  repeat (apply (f_equal2 (@cons char)); [apply (f_equal digit); zdiv|]);
  reflexivity.

Lemma re_sub_delete matches s :
  re_sub_class matches [] s = filter (fun c => negb (matches c)) s.
Proof.
  induction s as [|c t IH]; cbn [re_sub_class filter]; [reflexivity|].
  destruct (matches c); cbn [negb app]; rewrite IH; reflexivity.
Qed.

Lemma cleaned_is_filter s :
  re_sub_class (fun c => negb (in_word_class c)) [] s = filter in_word_class s.
Proof.
  rewrite re_sub_delete. apply filter_ext. intros c. apply negb_involutive.
Qed.

Lemma decimal_four_digits y :
  1000 <= y <= 9999 -> decimal y = fixed_width 4 y.
Proof.
  intros Hy. unfold decimal.
  replace (y <? 0) with false by (symmetry; apply Z.ltb_ge; lia).
  assert (Hlog : 9 <= Z.log2 y).
  { change 9 with (Z.log2 512). apply Z.log2_le_mono. lia. }
  destruct (Z.to_nat (Z.log2 y)) as [|[|[|k]]] eqn:Ek; try lia.
  cbn [digits_fuel].
  replace (y <? 10) with false by (symmetry; apply Z.ltb_ge; lia).
  replace (y / 10 <? 10) with false by (symmetry; apply Z.ltb_ge; zdiv).
  replace (y / 10 / 10 <? 10) with false by (symmetry; apply Z.ltb_ge; zdiv).
  replace (y / 10 / 10 / 10 <? 10) with true by (symmetry; apply Z.ltb_lt; zdiv).
  unfold fixed_width, digit_at. cbn [seq rev app map Z.of_nat Pos.of_succ_nat Pos.succ].
  change (10 ^ 3) with 1000. change (10 ^ 2) with 100.
  change (10 ^ 1) with 10. change (10 ^ 0) with 1.
  cbn [app]. digits_eq.
Qed.

Lemma two_digits_fixed n : 0 <= n <= 99 -> two_digits n = fixed_width 2 n.
Proof.
  intros Hn. unfold two_digits, fixed_width, digit_at.
  cbn [seq rev app map Z.of_nat Pos.of_succ_nat Pos.succ].
  change (10 ^ 1) with 10. change (10 ^ 0) with 1.
  digits_eq.
Qed.

(** With a four-digit year the formatted time is the 14-digit timestamp. *)
Lemma strftime_fixed_width tm :
  gmtime_range tm -> four_digit_year tm ->
  strftime_YmdHMS tm = timestamp14 tm.
Proof.
  intros (_ & Hm & Hd & Hh & Hmi & Hs) Hy. unfold strftime_YmdHMS, timestamp14.
  rewrite decimal_four_digits by assumption.
  rewrite !two_digits_fixed by lia. reflexivity.
Qed.

Lemma is_digit_digit d : 0 <= d <= 9 -> is_digit (digit d) = true.
Proof.
  intros Hd. unfold is_digit, between, digit.
  apply andb_true_iff. split; apply N.leb_le; lia.
Qed.

Lemma is_digit_digit_at n i : is_digit (digit_at n i) = true.
Proof.
  unfold digit_at. apply is_digit_digit.
  pose proof (Z.mod_pos_bound (n / 10 ^ Z.of_nat i) 10 ltac:(lia)). lia.
Qed.

(** The digits of a non-negative number are digits, and there are no more
    of them than the number has in base ten. *)
Lemma digits_fuel_digits fuel :
  forall n, 0 <= n -> forallb is_digit (digits_fuel fuel n) = true.
Proof.
  induction fuel as [|fuel IH]; intros n Hn; cbn [digits_fuel]; [reflexivity|].
  destruct (n <? 10) eqn:E.
  - apply Z.ltb_lt in E. cbn [forallb]. rewrite is_digit_digit by lia. reflexivity.
  - rewrite forallb_app, IH by zdiv. cbn [forallb].
    rewrite is_digit_digit by zdiv. reflexivity.
Qed.

Lemma digits_fuel_length fuel :
  forall k n, (1 <= k)%nat -> 0 <= n < 10 ^ Z.of_nat k ->
    (length (digits_fuel fuel n) <= k)%nat.
Proof.
  induction fuel as [|fuel IH]; intros k n Hk Hn; cbn [digits_fuel length]; [lia|].
  destruct (n <? 10) eqn:E; [cbn [length]; lia|].
  apply Z.ltb_ge in E. rewrite length_app. cbn [length].
  destruct k as [|[|k]]; [lia | change (10 ^ Z.of_nat 1) with 10 in Hn; lia |].
  assert (Hpow : 10 ^ Z.of_nat (S (S k)) = 10 * 10 ^ Z.of_nat (S k)).
  { rewrite (Nat2Z.inj_succ (S k)). apply Z.pow_succ_r. lia. }
  specialize (IH (S k) (n / 10) ltac:(lia)).
  assert (0 <= n / 10 < 10 ^ Z.of_nat (S k)).
  { split; [zdiv|]. apply Z.div_lt_upper_bound; lia. }
  specialize (IH H). lia.
Qed.

Lemma strftime_digits tm :
  gmtime_range tm ->
  forallb is_digit (strftime_YmdHMS tm) = true
  /\ (length (strftime_YmdHMS tm) <= 20)%nat.
Proof.
  intros (Hy & Hm & Hd & Hh & Hmi & Hs). unfold strftime_YmdHMS, decimal.
  replace (tm_year tm <? 0) with false by (symmetry; apply Z.ltb_ge; lia).
  split.
  - rewrite !forallb_app, digits_fuel_digits by lia.
    unfold two_digits. cbn [forallb].
    rewrite !is_digit_digit by zdiv. reflexivity.
  - rewrite !length_app. cbn [two_digits length].
    pose proof (digits_fuel_length (S (Z.to_nat (Z.log2 (tm_year tm))))
                  10 (tm_year tm) ltac:(lia)) as Hlen.
    change (10 ^ Z.of_nat 10) with 10000000000 in Hlen.
    change (2 ^ 31) with 2147483648 in Hy.
    specialize (Hlen ltac:(lia)). lia.
Qed.

Lemma fixed_width_length w n : length (fixed_width w n) = w.
Proof. unfold fixed_width. rewrite length_map, length_rev, length_seq. reflexivity. Qed.

Lemma fixed_width_digits w n : forallb is_digit (fixed_width w n) = true.
Proof.
  apply forallb_forall. intros c Hc. unfold fixed_width in Hc.
  apply in_map_iff in Hc as (i & <- & _). apply is_digit_digit_at.
Qed.

Lemma timestamp14_length tm : length (timestamp14 tm) = 14%nat.
Proof. unfold timestamp14. rewrite !length_app, !fixed_width_length. reflexivity. Qed.

Lemma timestamp14_digits tm : forallb is_digit (timestamp14 tm) = true.
Proof. unfold timestamp14. rewrite !forallb_app, !fixed_width_digits. reflexivity. Qed.

Lemma digit_in_word_class c : is_digit c = true -> in_word_class c = true.
Proof. intros H. unfold in_word_class. rewrite H. auto with bool. Qed.

Lemma forallb_impl {A} (p q : A -> bool) l :
  (forall x, p x = true -> q x = true) ->
  forallb p l = true -> forallb q l = true.
Proof.
  intros Hpq Hp. apply forallb_forall. intros x Hx.
  apply Hpq. eapply forallb_forall; eassumption.
Qed.

(** The fallback name has the shape of a sanitised name. *)
Lemma fallback_word_1_50 tm :
  gmtime_range tm ->
  word_1_50 (lit "empty_file_" ++ strftime_YmdHMS tm) = true.
Proof.
  intros Htm. destruct (strftime_digits tm Htm) as [Hdig Hlen].
  unfold word_1_50. rewrite forallb_app.
  rewrite (forallb_impl _ _ _ digit_in_word_class Hdig).
  rewrite length_app.
  replace (length (lit "empty_file_") + length (strftime_YmdHMS tm) <=? 50)%nat
    with true by (symmetry; apply Nat.leb_le; cbn [lit list_ascii_of_string map length]; lia).
  reflexivity.
Qed.

Lemma fallback_empty_file_14 tm :
  empty_file_14 (lit "empty_file_" ++ timestamp14 tm) = true.
Proof.
  unfold empty_file_14.
  change (skipn 11 (lit "empty_file_" ++ timestamp14 tm)) with (timestamp14 tm).
  change (firstn 11 (lit "empty_file_" ++ timestamp14 tm)) with (lit "empty_file_").
  rewrite timestamp14_length, timestamp14_digits. reflexivity.
Qed.

Lemma blank_has_no_word_character s :
  forallb is_whitespace s = true -> filter in_word_class s = [].
Proof.
  induction s as [|c t IH]; cbn [forallb filter]; [reflexivity|].
  intros H. apply andb_true_iff in H as [Hc Ht].
  assert (Hw : in_word_class c = false).
  { unfold is_whitespace, in_word_class, is_upper_ascii, is_lower_ascii,
      is_digit, between in *.
    repeat (apply orb_true_iff in Hc as [Hc|Hc]);
      repeat match goal with
      | H : (_ && _)%bool = true |- _ => apply andb_true_iff in H as [? ?]
      | H : N.leb _ _ = true |- _ => apply N.leb_le in H
      | H : N.eqb _ _ = true |- _ => apply N.eqb_eq in H
      end;
      repeat (apply orb_false_iff; split);
      try (apply andb_false_iff;
           first [ left; apply N.leb_gt; lia | right; apply N.leb_gt; lia ]);
      try (apply N.eqb_neq; lia). }
  rewrite Hw. auto.
Qed.

(** The sanitiser on a candidate that keeps at least one character. *)
Lemma validate_kept tm s :
  filter in_word_class s <> [] ->
  validate_and_trim_filename tm (Some s) = firstn 50 (filter in_word_class s).
Proof.
  intros Hne. unfold validate_and_trim_filename.
  assert (Hs : truthy s = true).
  { destruct s; [contradiction Hne; reflexivity | reflexivity]. }
  rewrite Hs. cbn [negb]. rewrite cleaned_is_filter.
  destruct (filter in_word_class s) eqn:E; [contradiction|].
  reflexivity.
Qed.

(** The sanitiser on a candidate that keeps nothing. *)
Lemma validate_fallback tm cand :
  match cand with
  | None => True
  | Some s => filter in_word_class s = []
  end ->
  validate_and_trim_filename tm cand = lit "empty_file_" ++ strftime_YmdHMS tm.
Proof.
  destruct cand as [s|]; [|reflexivity].
  intros Hs. unfold validate_and_trim_filename.
  destruct (truthy s); cbn [negb]; [|reflexivity].
  rewrite cleaned_is_filter, Hs. reflexivity.
Qed.

Lemma forallb_firstn {A} (p : A -> bool) n l :
  forallb p l = true -> forallb p (firstn n l) = true.
Proof.
  revert l. induction n as [|n IH]; intros [|x l]; cbn; auto.
  intros H. apply andb_true_iff in H as [Hx Hl]. rewrite Hx. cbn. auto.
Qed.

Lemma forallb_filter_self {A} (p : A -> bool) l :
  forallb p (filter p l) = true.
Proof.
  apply forallb_forall. intros x Hx. apply filter_In in Hx. tauto.
Qed.

Lemma filter_all {A} (p : A -> bool) l :
  forallb p l = true -> filter p l = l.
Proof.
  induction l as [|x l IH]; cbn; [reflexivity|].
  intros H. apply andb_true_iff in H as [Hx Hl]. rewrite Hx, IH; auto.
Qed.

(** Every result of the sanitiser has the shape of a sanitised name. *)
Lemma validate_word_1_50 tm candidate :
  gmtime_range tm ->
  word_1_50 (validate_and_trim_filename tm candidate) = true.
Proof.
  intros Htm. destruct candidate as [s|].
  - destruct (filter in_word_class s) as [|c kept] eqn:E.
    + rewrite validate_fallback by exact E. apply fallback_word_1_50, Htm.
    + rewrite validate_kept by (rewrite E; discriminate).
      unfold word_1_50. rewrite E.
      apply andb_true_iff. split; [apply andb_true_iff; split|].
      * reflexivity.
      * apply Nat.leb_le. apply firstn_le_length.
      * apply forallb_firstn. rewrite <- E. apply forallb_filter_self.
  - rewrite validate_fallback by exact I. apply fallback_word_1_50, Htm.
Qed.

Lemma word_1_50_spec name :
  word_1_50 name = true ->
  name <> [] /\ (length name <= 50)%nat
  /\ Forall (fun c => in_word_class c = true) name.
Proof.
  unfold word_1_50. intros H.
  apply andb_true_iff in H as [H Hall]. apply andb_true_iff in H as [Hne Hlen].
  repeat split.
  - intros ->. discriminate.
  - apply Nat.leb_le. assumption.
  - apply Forall_forall. intros c Hc. eapply forallb_forall; eassumption.
Qed.

(** C2.  For every candidate, [None] included, the sanitiser returns a
    string that is non-empty, at most 50 characters long and made of
    characters of [[A-Za-z0-9_]] only, whatever the clock reads. *)
Theorem validate_and_trim_filename_shape (tm : struct_time)
    (candidate : option str) :
  gmtime_range tm ->
  let name := validate_and_trim_filename tm candidate in
  name <> [] /\ (length name <= 50)%nat
  /\ Forall (fun c => in_word_class c = true) name
  /\ word_1_50 name = true.
Proof.
  intros Htm name.
  pose proof (validate_word_1_50 tm candidate Htm) as Hshape. fold name in Hshape.
  destruct (word_1_50_spec name Hshape) as (Hne & Hlen & Hall).
  auto.
Qed.

Lemma validate_and_trim_filename_shape_witness :
  let name := validate_and_trim_filename tm_example (Some (lit "a b/c.pdf")) in
  name <> [] /\ (length name <= 50)%nat
  /\ Forall (fun c => in_word_class c = true) name
  /\ word_1_50 name = true.
Proof.
  apply (validate_and_trim_filename_shape tm_example (Some (lit "a b/c.pdf"))).
  unfold gmtime_range, fields_in_range, tm_example. cbn. lia.
Defined.

(** C5.  For a candidate that is [None], empty, whitespace only, or left
    empty once the characters outside [[A-Za-z0-9_]] are removed, the
    sanitiser returns ["empty_file_"] followed by the clock reading
    printed as year, month, day, hour, minute and second at fixed widths
    4, 2, 2, 2, 2, 2: fourteen digits, so that the result has the shape
    [empty_file_\d{14}].  The year of the clock has four digits. *)
Theorem empty_candidate_fallback (tm : struct_time) (candidate : option str) :
  gmtime_range tm -> four_digit_year tm ->
  (candidate = None
   \/ exists s, candidate = Some s
        /\ (s = [] \/ forallb is_whitespace s = true
            \/ re_sub_class (fun c => negb (in_word_class c)) [] s = [])) ->
  validate_and_trim_filename tm candidate = lit "empty_file_" ++ timestamp14 tm
  /\ length (timestamp14 tm) = 14%nat
  /\ forallb is_digit (timestamp14 tm) = true
  /\ empty_file_14 (validate_and_trim_filename tm candidate) = true.
Proof.
  intros Htm Hyear Hcand.
  assert (Heq : validate_and_trim_filename tm candidate
                = lit "empty_file_" ++ timestamp14 tm).
  { rewrite <- strftime_fixed_width by assumption.
    apply validate_fallback.
    destruct Hcand as [-> | (s & -> & [-> | [Hws | Hre]])].
    - exact I.
    - reflexivity.
    - apply blank_has_no_word_character. assumption.
    - rewrite <- cleaned_is_filter. assumption. }
  split; [exact Heq|]. split; [apply timestamp14_length|].
  split; [apply timestamp14_digits|].
  rewrite Heq. apply fallback_empty_file_14.
Qed.

Lemma empty_candidate_fallback_witness :
  validate_and_trim_filename tm_example (Some (lit "   "))
    = lit "empty_file_" ++ timestamp14 tm_example
  /\ length (timestamp14 tm_example) = 14%nat
  /\ forallb is_digit (timestamp14 tm_example) = true
  /\ empty_file_14 (validate_and_trim_filename tm_example (Some (lit "   ")))
     = true.
Proof.
  apply (empty_candidate_fallback tm_example (Some (lit "   "))).
  - unfold gmtime_range, fields_in_range, tm_example. cbn. lia.
  - unfold four_digit_year, tm_example. cbn. lia.
  - right. exists (lit "   "). split; [reflexivity|].
    right. left. reflexivity.
Defined.

Example fallback_examples :
  validate_and_trim_filename tm_example None = lit "empty_file_20240309070500"
  /\ validate_and_trim_filename tm_example (Some []) = lit "empty_file_20240309070500"
  /\ validate_and_trim_filename tm_example (Some (lit "   "))
     = lit "empty_file_20240309070500".
Proof. repeat split. Qed.

Lemma alnum_in_word_class c : is_alnum c = true -> in_word_class c = true.
Proof. unfold is_alnum, in_word_class. intros ->. reflexivity. Qed.

(** C7.  The sanitiser deletes every character outside [[A-Za-z0-9_]]
    and puts nothing in its place, so the kept characters are the
    candidate filtered, unchanged and in their order; the result is the
    first 50 of them.  ["Hello, World! 2024.pdf-report"] becomes
    ["HelloWorld2024pdfreport"], and an alphanumeric candidate of 60
    characters becomes its first 50 characters. *)
Theorem sanitize_deletes_then_truncates (tm : struct_time) :
  (forall s,
     re_sub_class (fun c => negb (in_word_class c)) [] s = filter in_word_class s)
  /\ (forall s, filter in_word_class s <> [] ->
        validate_and_trim_filename tm (Some s)
        = firstn 50 (filter in_word_class s))
  /\ validate_and_trim_filename tm (Some (lit "Hello, World! 2024.pdf-report"))
     = lit "HelloWorld2024pdfreport"
  /\ (forall s, length s = 60%nat -> forallb is_alnum s = true ->
        validate_and_trim_filename tm (Some s) = firstn 50 s
        /\ length (validate_and_trim_filename tm (Some s)) = 50%nat).
Proof.
  split; [exact cleaned_is_filter|]. split; [exact (validate_kept tm)|].
  split; [reflexivity|].
  intros s Hlen Halnum.
  assert (Hkeep : filter in_word_class s = s).
  { apply filter_all. revert Halnum. apply forallb_impl, alnum_in_word_class. }
  assert (Heq : validate_and_trim_filename tm (Some s) = firstn 50 s).
  { rewrite validate_kept; rewrite Hkeep; [reflexivity|].
    intros ->. discriminate. }
  split; [exact Heq|]. rewrite Heq, length_firstn, Hlen. reflexivity.
Qed.

Lemma sanitize_deletes_then_truncates_witness :
  validate_and_trim_filename tm_example (Some sixty_alnum)
    = firstn 50 sixty_alnum
  /\ length (validate_and_trim_filename tm_example (Some sixty_alnum)) = 50%nat.
Proof.
  apply (proj2 (proj2 (proj2 (sanitize_deletes_then_truncates tm_example))));
    reflexivity.
Defined.

(* ================================================================== *)
(** * Collision avoidance *)
(* ================================================================== *)

Lemma str_eqb_eq a b : str_eqb a b = true <-> a = b.
Proof.
  unfold str_eqb. destruct (list_eq_dec N.eq_dec a b); split; intros;
    try reflexivity; try assumption; try discriminate; contradiction.
Qed.

Lemma str_eqb_refl a : str_eqb a a = true.
Proof. apply str_eqb_eq. reflexivity. Qed.

Lemma endswith_app s suffix : endswith (s ++ suffix) suffix = true.
Proof.
  unfold endswith. rewrite length_app.
  replace (length s + length suffix - length suffix)%nat with (length s) by lia.
  rewrite skipn_app, skipn_all, Nat.sub_diag. cbn [skipn app].
  rewrite str_eqb_refl. apply Nat.leb_le. lia.
Qed.

Lemma word_class_ascii c : in_word_class c = true -> is_ascii c = true.
Proof.
  unfold in_word_class, is_upper_ascii, is_lower_ascii, is_digit, between, is_ascii.
  intros H. apply N.ltb_lt.
  repeat (apply orb_true_iff in H as [H|H]);
    repeat match goal with
    | H : (_ && _)%bool = true |- _ => apply andb_true_iff in H as [? ?]
    | H : N.leb _ _ = true |- _ => apply N.leb_le in H
    | H : N.eqb _ _ = true |- _ => apply N.eqb_eq in H
    end; lia.
Qed.

(** A sanitised name followed by [".pdf"] passes the filter of the set
    comprehension, whatever the Unicode case tables are. *)
Lemma sanitised_pdf_name_is_pdf unicode_lower base :
  forallb in_word_class base = true ->
  endswith (lower unicode_lower (base ++ lit ".pdf")) (lit ".pdf") = true.
Proof.
  intros Hbase. unfold lower.
  assert (Hascii : forallb is_ascii (base ++ lit ".pdf") = true).
  { rewrite forallb_app. apply andb_true_iff. split; [|reflexivity].
    revert Hbase. apply forallb_impl, word_class_ascii. }
  rewrite Hascii, map_app.
  change (map lower_ascii_char (lit ".pdf")) with (lit ".pdf").
  apply endswith_app.
Qed.

Lemma existsb_str_eqb name l : existsb (str_eqb name) l = true <-> In name l.
Proof.
  rewrite existsb_exists. split.
  - intros (x & Hx & Heq). apply str_eqb_eq in Heq. subst. assumption.
  - intros H. exists name. split; [assumption | apply str_eqb_refl].
Qed.

Lemma deduplicate_member name existing :
  In (name ++ lit ".pdf") existing ->
  deduplicate name existing = name ++ lit "_01".
Proof.
  intros H. unfold deduplicate.
  apply existsb_str_eqb in H. rewrite H. reflexivity.
Qed.

Lemma deduplicate_fresh name existing :
  ~ In (name ++ lit ".pdf") existing -> deduplicate name existing = name.
Proof.
  intros H. unfold deduplicate.
  destruct (existsb (str_eqb (name ++ lit ".pdf")) existing) eqn:E;
    [|reflexivity].
  apply existsb_str_eqb in E. contradiction.
Qed.

Lemma existing_pdfs_member unicode_lower base listing :
  forallb in_word_class base = true ->
  In (base ++ lit ".pdf") (existing_pdfs unicode_lower listing)
  <-> In (base ++ lit ".pdf") listing.
Proof.
  intros Hbase. unfold existing_pdfs. rewrite filter_In.
  rewrite (sanitised_pdf_name_is_pdf unicode_lower base Hbase). tauto.
Qed.

(** C3.  For every sanitised base name and every listing of the
    directory, the collision check appends ["_01"] once when
    [base + ".pdf"] is among the existing names and otherwise leaves the
    base alone, for any set of existing names; it does so even when
    [base + "_01.pdf"] exists as well.  The extension is the literal
    ["pdf"] of the source. *)
Theorem deduplicate_single_suffix (unicode_lower : str -> str)
    (base : str) (listing : list str) :
  forallb in_word_class base = true ->
  let final := deduplicate base (existing_pdfs unicode_lower listing) in
  (forall existing : list str,
     (In (base ++ lit ".pdf") existing ->
        deduplicate base existing = base ++ lit "_01")
     /\ (~ In (base ++ lit ".pdf") existing -> deduplicate base existing = base))
  /\ (In (base ++ lit ".pdf") listing -> final = base ++ lit "_01")
  /\ (~ In (base ++ lit ".pdf") listing -> final = base)
  /\ (In (base ++ lit ".pdf") listing ->
      In (base ++ lit "_01" ++ lit ".pdf") listing -> final = base ++ lit "_01")
  /\ deduplicate (lit "report") (existing_pdfs unicode_lower [lit "report.pdf"])
     = lit "report_01"
  /\ deduplicate (lit "report") (existing_pdfs unicode_lower [lit "other.pdf"])
     = lit "report".
Proof.
  intros Hbase final.
  pose proof (existing_pdfs_member unicode_lower base listing Hbase) as Hmem.
  split; [intros existing; split;
          [apply deduplicate_member | apply deduplicate_fresh]|].
  split; [intros H; apply deduplicate_member, Hmem, H|].
  split; [intros H; apply deduplicate_fresh; rewrite Hmem; exact H|].
  split; [intros H _; apply deduplicate_member, Hmem, H|].
  split; reflexivity.
Qed.

Lemma deduplicate_single_suffix_witness :
  deduplicate (lit "report")
    (existing_pdfs lower_keep [lit "report.pdf"; lit "report_01.pdf"])
  = lit "report_01".
Proof.
  apply (proj1 (proj2 (proj2 (proj2
           (deduplicate_single_suffix lower_keep (lit "report")
              [lit "report.pdf"; lit "report_01.pdf"] eq_refl)))));
    [left; reflexivity | right; left; reflexivity].
Defined.

(** C10.  The base name used for the rename is the sanitised name or the
    sanitised name followed by ["_01"]; it has at most 53 characters, and
    53 is reached: the bound of 50 characters holds for the sanitised
    name, not for the final one. *)
Theorem final_name_length (unicode_lower : str -> str) (tm : struct_time)
    (candidate : option str) (listing : list str) :
  gmtime_range tm ->
  let name := validate_and_trim_filename tm candidate in
  let final := deduplicate name (existing_pdfs unicode_lower listing) in
  (final = name \/ final = name ++ lit "_01")
  /\ (length name <= 50)%nat
  /\ (length final <= 53)%nat
  /\ (exists candidate' listing',
        length (deduplicate (validate_and_trim_filename tm candidate')
                  (existing_pdfs unicode_lower listing')) = 53%nat).
Proof.
  intros Htm name final.
  destruct (word_1_50_spec name (validate_word_1_50 tm candidate Htm))
    as (_ & Hlen & _).
  assert (Hcases : final = name \/ final = name ++ lit "_01").
  { subst final. unfold deduplicate.
    destruct (existsb _ _); [right | left]; reflexivity. }
  split; [exact Hcases|]. split; [exact Hlen|]. split.
  - destruct Hcases as [-> | ->]; [lia|].
    rewrite length_app. cbn [lit list_ascii_of_string map length]. lia.
  - exists (Some fifty_alnum), [fifty_alnum ++ lit ".pdf"]. reflexivity.
Qed.

Lemma final_name_length_witness :
  let name := validate_and_trim_filename tm_example (Some fifty_alnum) in
  let final :=
    deduplicate name (existing_pdfs lower_keep [fifty_alnum ++ lit ".pdf"]) in
  (final = name \/ final = name ++ lit "_01")
  /\ (length name <= 50)%nat
  /\ (length final <= 53)%nat
  /\ (exists candidate' listing',
        length (deduplicate (validate_and_trim_filename tm_example candidate')
                  (existing_pdfs lower_keep listing')) = 53%nat).
Proof.
  apply (final_name_length lower_keep tm_example (Some fifty_alnum)
           [fifty_alnum ++ lit ".pdf"]).
  unfold gmtime_range, fields_in_range, tm_example. cbn. lia.
Defined.

Example final_name_53 :
  length (deduplicate (validate_and_trim_filename tm_example (Some fifty_alnum))
            (existing_pdfs lower_keep [fifty_alnum ++ lit ".pdf"])) = 53%nat.
Proof. reflexivity. Qed.

(* ================================================================== *)
(** * The batch and failures of the naming service *)
(* ================================================================== *)

Section BatchFacts.

Variable encode : str -> list N.
Variable unicode_lower : str -> str.
Variable gmtime : nat -> struct_time.
Variable chat_completion : nat -> str -> option str.

(** A failing request leaves the loop at once: the entries after the
    current one are not looked at. *)
Lemma generation_failure_leaves_loop fuel i w filename rest pdf_content :
  endswith (lower unicode_lower filename) (lit ".pdf") = true ->
  pdfs_to_text_string encode fuel (w_dir (print w (Reading filename))) filename
    = Return pdf_content ->
  chat_completion i pdf_content = None ->
  rename_loop encode unicode_lower gmtime chat_completion fuel i w
    (filename :: rest)
  = Uncaught APIError (print w (Reading filename)).
Proof.
  intros Hpdf Htext Hfail. cbn [rename_loop]. unfold rename_one.
  rewrite Hpdf, Htext. unfold get_new_filename_from_openai.
  rewrite Hfail. reflexivity.
Qed.

(** A failing rename is caught: the loop goes on with the next entry. *)
Lemma rename_failure_is_caught fuel i w filename rest pdf_content name :
  endswith (lower unicode_lower filename) (lit ".pdf") = true ->
  pdfs_to_text_string encode fuel (w_dir (print w (Reading filename))) filename
    = Return pdf_content ->
  get_new_filename_from_openai gmtime chat_completion i pdf_content
    = Return name ->
  os_rename (w_dir w) filename
    (deduplicate name (existing_pdfs unicode_lower (listdir (w_dir w)))
     ++ lit ".pdf") = None ->
  rename_loop encode unicode_lower gmtime chat_completion fuel i w
    (filename :: rest)
  = rename_loop encode unicode_lower gmtime chat_completion fuel (S i)
      (print (print w (Reading filename)) RenameError) rest.
Proof.
  intros Hpdf Htext Hname Hren. cbn [rename_loop]. unfold rename_one.
  rewrite Hpdf, Htext, Hname.
  change (w_dir (print w (Reading filename))) with (w_dir w).
  rewrite Hren. reflexivity.
Qed.

End BatchFacts.

(** C9 (the code departs from it).  With two PDF files in the directory and
    a naming service that fails on the request for the first file only, the run ends
    with the exception uncaught after the first file was read: the second
    file is neither read nor renamed.  A failing rename, in contrast, is
    caught and the next file is processed. *)
Theorem generation_failure_aborts_batch :
  rename_pdfs_in_directory encode_chars lower_keep (fun _ => tm_example)
    service_fails_once 100
    {| w_dir := [notes_txt; report_pdf; invoice_pdf]; w_out := [] |}
  = Uncaught APIError
      {| w_dir := [notes_txt; report_pdf; invoice_pdf];
         w_out := [Reading (lit "a.pdf")] |}
  /\ rename_pdfs_in_directory encode_chars lower_keep (fun _ => tm_example)
       service_up 100
       {| w_dir := [invoice_pdf; report_pdf; taken_name; blocking_dir];
          w_out := [] |}
     = Finished
         {| w_dir := [invoice_pdf; report_pdf; taken_name; blocking_dir];
            w_out := [Reading (lit "a.pdf"); RenameError;
                      Reading (lit "b.pdf"); RenameError;
                      Reading (lit "Acme_Invoice_4521.pdf"); RenameError] |}.
Proof. split; vm_compute; reflexivity. Qed.

(** The end-to-end scenarios of the specification, with the service up.
    In the second one the file that already has the suggested name is a
    PDF of the batch too: it collides with itself, takes the same suffixed
    name and replaces the file renamed just before. *)
Example rename_scenarios :
  rename_pdfs_in_directory encode_chars lower_keep (fun _ => tm_example)
    service_up 100 {| w_dir := [invoice_pdf; notes_txt]; w_out := [] |}
  = Finished
      {| w_dir := [{| f_name := lit "Acme_Invoice_4521.pdf"; f_mtime := 2;
                      f_isfile := true;
                      f_pdf := Some [lit "Invoice #4521 from Acme Corp"] |};
                   notes_txt];
         w_out := [Reading (lit "a.pdf");
                   Renamed (lit "Acme_Invoice_4521.pdf")] |}
  /\ rename_pdfs_in_directory encode_chars lower_keep (fun _ => tm_example)
       service_up 100 {| w_dir := [invoice_pdf; taken_name]; w_out := [] |}
     = Finished
         {| w_dir := [{| f_name := lit "Acme_Invoice_4521_01.pdf"; f_mtime := 0;
                         f_isfile := true; f_pdf := Some [lit "older"] |}];
            w_out := [Reading (lit "a.pdf");
                      Renamed (lit "Acme_Invoice_4521_01.pdf");
                      Reading (lit "Acme_Invoice_4521.pdf");
                      Renamed (lit "Acme_Invoice_4521_01.pdf")] |}.
Proof. split; vm_compute; reflexivity. Qed.

(* ================================================================== *)
(** * Further properties of the budgeter *)
(* ================================================================== *)

Lemma is_prefix_refl s : is_prefix s s.
Proof. exists (length s). symmetry. apply firstn_all. Qed.

Lemma is_prefix_trans a b c : is_prefix a b -> is_prefix b c -> is_prefix a c.
Proof.
  intros [k ->] [j ->]. exists (Nat.min k j). apply firstn_firstn.
Qed.

Lemma slice_to_is_prefix s k : is_prefix (slice_to s k) s.
Proof. unfold slice_to. destruct (0 <=? k); eexists; reflexivity. Qed.

Lemma shrink_is_prefix content content' :
  shrink content = Return content' -> is_prefix content' content.
Proof.
  unfold shrink. destruct (int_mul_0_9 (len content)) as [k|]; cbn; [|discriminate].
  intros H. injection H as <-. apply slice_to_is_prefix.
Qed.

Lemma content_token_cut_prefix (encode : str -> list N) max_tokens r :
  forall fuel content num_tokens,
    content_token_cut encode fuel content num_tokens max_tokens = Return r ->
    is_prefix r content.
Proof.
  induction fuel as [|fuel IH]; intros content num_tokens;
    cbn [content_token_cut]; destruct (num_tokens >? max_tokens);
    try discriminate; try (intros H; injection H as <-; apply is_prefix_refl).
  destruct (shrink content) as [content'| |] eqn:Es; cbn [bind];
    try discriminate.
  intros H. apply IH in H.
  eapply is_prefix_trans; [exact H | apply shrink_is_prefix; exact Es].
Qed.

Lemma fit_to_budget_prefix (encode : str -> list N) fuel max_tokens content r :
  fit_to_budget encode fuel max_tokens content = Return r -> is_prefix r content.
Proof.
  unfold fit_to_budget. destruct (len (encode content) >? max_tokens).
  - apply content_token_cut_prefix.
  - intros H. injection H as <-. apply is_prefix_refl.
Qed.

(** X1.  Whatever the tokenizer and the counts, a string returned by
    [content_token_cut] or by the budgeting step is an initial segment of
    the content given: the loop only cuts at the end. *)
Theorem budgeter_returns_prefix (encode : str -> list N) (fuel : nat)
    (content : str) (num_tokens max_tokens : Z) (r : str) :
  (content_token_cut encode fuel content num_tokens max_tokens = Return r
   \/ fit_to_budget encode fuel max_tokens content = Return r) ->
  is_prefix r content.
Proof.
  intros [H | H].
  - eapply content_token_cut_prefix; exact H.
  - eapply fit_to_budget_prefix; exact H.
Qed.

Lemma budgeter_returns_prefix_witness :
  is_prefix (lit "01234") (lit "0123456789").
Proof.
  apply (budgeter_returns_prefix encode_chars 11 (lit "0123456789") 10 5
           (lit "01234")).
  right. vm_compute. reflexivity.
Defined.

(** X2.  With a negative budget the loop never returns: entered with a
    count above the budget it uses up any number of passes, and so does
    the budgeting step. *)
Theorem negative_budget_never_returns (encode : str -> list N)
    (content : str) (num_tokens max_tokens : Z) :
  max_tokens < 0 -> max_tokens < num_tokens -> len content < 2 ^ 49 ->
  forall fuel,
    content_token_cut encode fuel content num_tokens max_tokens = OutOfFuel
    /\ fit_to_budget encode fuel max_tokens content = OutOfFuel.
Proof.
  intros Hneg Hnum Hlen fuel.
  assert (Hcut : forall fuel content num_tokens,
             max_tokens < num_tokens -> len content < 2 ^ 49 ->
             content_token_cut encode fuel content num_tokens max_tokens
             = OutOfFuel).
  { clear - Hneg. induction fuel as [|fuel IH]; intros content num_tokens Hn Hl;
      cbn [content_token_cut]; rewrite (gtb_true _ _ Hn); [reflexivity|].
    destruct (shrink_len content Hl) as (content' & Hs & Hl').
    rewrite Hs. cbn [bind]. apply IH.
    - pose proof (len_nonneg (encode content')). lia.
    - pose proof (floor_0_9_bounds (len content) (len_nonneg content)). lia. }
  split; [apply Hcut; assumption|].
  unfold fit_to_budget.
  pose proof (len_nonneg (encode content)) as H0.
  rewrite gtb_true by lia. apply Hcut; [lia | assumption].
Qed.

Lemma negative_budget_never_returns_witness :
  content_token_cut encode_chars 1000 (lit "abc") 3 (-1) = OutOfFuel
  /\ fit_to_budget encode_chars 1000 (-1) (lit "abc") = OutOfFuel.
Proof.
  refine (negative_budget_never_returns encode_chars (lit "abc") 3 (-1)
            _ _ _ 1000);
    [lia | lia | vm_compute; reflexivity].
Defined.

Lemma floor_0_9_mono a b : a <= b -> floor_0_9 a <= floor_0_9 b.
Proof. intros H. unfold floor_0_9. apply Z.div_le_mono; lia. Qed.

Lemma iter_floor_0_9_mono k a b :
  a <= b -> Nat.iter k floor_0_9 a <= Nat.iter k floor_0_9 b.
Proof.
  intros H. induction k as [|k IH]; [assumption|].
  rewrite !Nat.iter_succ. apply floor_0_9_mono, IH.
Qed.

Lemma iter_floor_0_9_nonneg k a : 0 <= a -> 0 <= Nat.iter k floor_0_9 a.
Proof.
  intros H. induction k as [|k IH]; [assumption|].
  rewrite Nat.iter_succ. set (x := Nat.iter k floor_0_9 a) in *.
  unfold floor_0_9. apply Z.div_pos; lia.
Qed.

Lemma max_passes_reach_zero n :
  0 <= n < 2 ^ 49 -> Nat.iter max_passes floor_0_9 n = 0.
Proof.
  intros Hn.
  pose proof (iter_floor_0_9_mono max_passes n (2 ^ 49 - 1) ltac:(lia)) as Hle.
  pose proof (iter_floor_0_9_nonneg max_passes n ltac:(lia)) as Hge.
  replace (Nat.iter max_passes floor_0_9 (2 ^ 49 - 1)) with 0 in Hle
    by (vm_compute; reflexivity).
  lia.
Qed.

Section PassBound.

Variable encode : str -> list N.
Hypothesis encode_nil : encode [] = [].
Variable max_tokens : Z.
Hypothesis max_tokens_pos : 0 < max_tokens.

(** Entered with the count of its content, the loop needs no more passes
    than the length needs to shrink to zero. *)
Lemma content_token_cut_passes k :
  forall content fuel,
    Nat.iter k floor_0_9 (len content) = 0 -> len content < 2 ^ 49 ->
    (k <= fuel)%nat ->
    exists r,
      content_token_cut encode fuel content (len (encode content)) max_tokens
      = Return r.
Proof.
  induction k as [|k IH]; intros content fuel Hk Hlen Hfuel.
  - cbn [Nat.iter nat_rect] in Hk. apply len_nil_iff in Hk. subst content.
    exists []. rewrite encode_nil.
    destruct fuel; cbn [content_token_cut];
      rewrite gtb_false by (cbn; lia); reflexivity.
  - destruct (Z_le_gt_dec (len (encode content)) max_tokens) as [Hle | Hgt].
    + exists content.
      destruct fuel; cbn [content_token_cut]; rewrite (gtb_false _ _ Hle);
        reflexivity.
    + destruct fuel as [|fuel]; [lia|].
      cbn [content_token_cut]. rewrite gtb_true by lia.
      destruct (shrink_len content Hlen) as (content' & Hs & Hl).
      rewrite Hs. cbn [bind]. apply IH.
      * rewrite Nat.iter_succ_r in Hk. rewrite Hl. exact Hk.
      * pose proof (floor_0_9_bounds (len content) (len_nonneg content)). lia.
      * lia.
Qed.

End PassBound.

Lemma fit_to_budget_pass_bound (encode : str -> list N) content max_tokens fuel :
  encode [] = [] -> 0 < max_tokens -> len content < 2 ^ 49 ->
  (max_passes <= fuel)%nat ->
  exists r, fit_to_budget encode fuel max_tokens content = Return r.
Proof.
  intros Hnil Hpos Hlen Hfuel. unfold fit_to_budget.
  destruct (len (encode content) >? max_tokens) eqn:E; [|eexists; reflexivity].
  apply (content_token_cut_passes encode Hnil max_tokens Hpos max_passes);
    auto.
  apply max_passes_reach_zero. pose proof (len_nonneg content). lia.
Qed.

(** X3.  The number of passes does not grow with the content beyond a
    fixed bound: for every content shorter than [2^49] characters the
    budgeting step returns as soon as 306 passes are allowed, and
    [content_token_cut] entered with any count as soon as 307 are. *)
Theorem budgeter_pass_bound (encode : str -> list N) (content : str)
    (max_tokens : Z) :
  encode [] = [] -> 0 < max_tokens -> len content < 2 ^ 49 ->
  (forall fuel, (max_passes <= fuel)%nat ->
     exists r, fit_to_budget encode fuel max_tokens content = Return r)
  /\ (forall fuel num_tokens, (S max_passes <= fuel)%nat ->
        exists r,
          content_token_cut encode fuel content num_tokens max_tokens = Return r).
Proof.
  intros Hnil Hpos Hlen.
  assert (Hreach : forall c : str, len c < 2 ^ 49 ->
             Nat.iter max_passes floor_0_9 (len c) = 0).
  { intros c Hc. apply max_passes_reach_zero. pose proof (len_nonneg c). lia. }
  split.
  - intros fuel Hfuel. apply fit_to_budget_pass_bound; assumption.
  - intros fuel num_tokens Hfuel.
    destruct fuel as [|fuel]; [lia|]. cbn [content_token_cut].
    destruct (num_tokens >? max_tokens); [|eexists; reflexivity].
    destruct (shrink_len content Hlen) as (content' & Hs & Hl).
    rewrite Hs. cbn [bind].
    assert (Hlen' : len content' < 2 ^ 49).
    { pose proof (floor_0_9_bounds (len content) (len_nonneg content)). lia. }
    apply (content_token_cut_passes encode Hnil max_tokens Hpos max_passes);
      auto. lia.
Qed.

Lemma budgeter_pass_bound_witness :
  (forall fuel, (max_passes <= fuel)%nat ->
     exists r, fit_to_budget encode_chars fuel 5 (lit "0123456789") = Return r)
  /\ (forall fuel num_tokens, (S max_passes <= fuel)%nat ->
        exists r,
          content_token_cut encode_chars fuel (lit "0123456789") num_tokens 5
          = Return r).
Proof.
  apply (budgeter_pass_bound encode_chars (lit "0123456789") 5);
    [reflexivity | lia | vm_compute; reflexivity].
Defined.

Lemma utf8_len_le s : utf8_len s <= 4 * len s.
Proof.
  unfold len. induction s as [|c t IH]; cbn [utf8_len fold_right length]; [lia|].
  fold (utf8_len t).
  assert (utf8_len_char c <= 4)
    by (unfold utf8_len_char; repeat destruct (N.ltb _ _); lia).
  lia.
Qed.

Lemma fit_to_budget_keeps_enough (encode : str -> list N) (fuel : nat)
    (content : str) (max_tokens : Z) (r : str) :
  (forall s, len (encode s) <= utf8_len s) ->
  len content < 2 ^ 49 ->
  fit_to_budget encode fuel max_tokens content = Return r ->
  (r = content \/ 9 * max_tokens - 31 < 40 * len r)
  /\ (4 <= max_tokens -> content <> [] -> r <> []).
Proof.
  intros Hbytes Hlen Hrun.
  assert (Hcut : forall fuel content,
             len content < 2 ^ 49 ->
             content_token_cut encode fuel content (len (encode content)) max_tokens
             = Return r ->
             r = content \/ 9 * max_tokens - 31 < 40 * len r).
  { clear - Hbytes. induction fuel as [|fuel IH]; intros content Hlen;
      cbn [content_token_cut];
      destruct (len (encode content) >? max_tokens) eqn:E;
      try discriminate; try (intros H; injection H as <-; left; reflexivity).
    destruct (shrink_len content Hlen) as (content' & Hs & Hl).
    rewrite Hs. cbn [bind]. intros H.
    assert (Hover : max_tokens < 4 * len content).
    { rewrite Z.gtb_ltb in E. apply Z.ltb_lt in E.
      pose proof (Hbytes content). pose proof (utf8_len_le content). lia. }
    assert (Hkeep : 9 * max_tokens - 31 < 40 * len content').
    { rewrite Hl. zdiv. }
    apply IH in H.
    - destruct H as [-> | H]; right; assumption.
    - pose proof (floor_0_9_bounds (len content) (len_nonneg content)). lia. }
  assert (Hres : r = content \/ 9 * max_tokens - 31 < 40 * len r).
  { unfold fit_to_budget in Hrun.
    destruct (len (encode content) >? max_tokens) eqn:E.
    - apply (Hcut fuel); assumption.
    - injection Hrun as <-. left. reflexivity. }
  split; [exact Hres|].
  intros Hm Hne Hr. destruct Hres as [-> | Hres]; [contradiction|].
  rewrite Hr in Hres. unfold len in Hres. cbn [length Z.of_nat] in Hres. lia.
Qed.

(** X4.  With a tokenizer whose tokens cover at least one byte each, the
    budgeting step never cuts deeper than the budget asks for: what it
    returns is the content itself or has more than [(9 * max_tokens - 31) / 40]
    characters, and from a non-empty content and a budget of at least four
    tokens it never returns the empty string. *)
Theorem truncation_keeps_enough (encode : str -> list N) (fuel : nat)
    (content : str) (max_tokens : Z) (r : str) :
  (forall s, len (encode s) <= utf8_len s) ->
  len content < 2 ^ 49 ->
  fit_to_budget encode fuel max_tokens content = Return r ->
  (r = content \/ 9 * max_tokens - 31 < 40 * len r)
  /\ (4 <= max_tokens -> content <> [] -> r <> []).
Proof.
  intros Hbytes Hlen Hrun.
  exact (fit_to_budget_keeps_enough encode fuel content max_tokens r
           Hbytes Hlen Hrun).
Qed.

Lemma truncation_keeps_enough_witness :
  (lit "01234" = lit "0123456789" \/ 9 * 5 - 31 < 40 * len (lit "01234"))
  /\ (4 <= 5 -> lit "0123456789" <> [] -> lit "01234" <> []).
Proof.
  apply (truncation_keeps_enough encode_chars 11 (lit "0123456789") 5
           (lit "01234") encode_chars_bytes);
    vm_compute; reflexivity.
Defined.

(* ================================================================== *)
(** * Further properties of the text extraction *)
(* ================================================================== *)

Lemma has_ink_lstrip s :
  has_ink s = true -> lstrip s <> [] /\ has_ink (lstrip s) = true.
Proof.
  unfold has_ink. induction s as [|c t IH]; cbn [existsb lstrip]; [discriminate|].
  destruct (is_whitespace c) eqn:Ec; cbn [negb orb].
  - exact IH.
  - intros _. split; [discriminate|]. cbn [existsb]. rewrite Ec. reflexivity.
Qed.

Lemma has_ink_rev s : has_ink (rev s) = has_ink s.
Proof.
  unfold has_ink. apply eq_true_iff_eq. rewrite !existsb_exists.
  split; intros (c & Hin & Hc); exists c; split; auto;
    [apply in_rev | apply in_rev in Hin]; assumption.
Qed.

(** [strip] leaves something exactly when the text is not blank. *)
Lemma strip_ink s : has_ink s = true -> strip s <> [].
Proof.
  intros H. unfold strip, rstrip.
  destruct (has_ink_lstrip s H) as [_ H1].
  rewrite <- has_ink_rev in H1.
  destruct (has_ink_lstrip _ H1) as [H2 _].
  intros Hrev. apply H2.
  apply (f_equal (@rev char)) in Hrev. rewrite rev_involutive in Hrev. exact Hrev.
Qed.

Lemma blank_or_ink s : forallb is_whitespace s = true \/ has_ink s = true.
Proof.
  unfold has_ink. induction s as [|c t IH]; cbn [forallb existsb]; [left; reflexivity|].
  destruct (is_whitespace c); cbn [negb andb orb]; [exact IH | right; reflexivity].
Qed.

Lemma pdfs_to_text_string_unfold (encode : str -> list N) fuel d filepath f pages :
  lookup d filepath = Some f -> f_pdf f = Some pages ->
  pdfs_to_text_string encode fuel d filepath
  = fit_to_budget encode fuel max_length
      (let content := match pages with page :: _ => page | [] => [] end in
       if negb (truthy (strip content)) then placeholder else content).
Proof.
  intros Hl Hp. unfold pdfs_to_text_string. rewrite Hl. cbn [lift_option bind].
  rewrite Hp. reflexivity.
Qed.



(** X6.  With a tokenizer whose tokens cover at least one byte each,
    [pdfs_to_text_string] never returns the empty string: it returns the
    placeholder, or an initial segment of the first page that is the whole
    page or has at least 3375 characters. *)
Theorem extracted_text_is_never_empty (encode : str -> list N)
    (fuel : nat) (d : directory) (filepath : str) (f : file)
    (pages : list str) (r : str) :
  (forall s, len (encode s) <= utf8_len s) ->
  lookup d filepath = Some f -> f_pdf f = Some pages ->
  len (match pages with page :: _ => page | [] => [] end) < 2 ^ 49 ->
  pdfs_to_text_string encode fuel d filepath = Return r ->
  r <> []
  /\ (r = placeholder
      \/ exists page rest, pages = page :: rest /\ is_prefix r page
           /\ (r = page \/ 3375 <= len r)).
Proof.
  intros Hbytes Hl Hp Hlen Hrun.
  rewrite (pdfs_to_text_string_unfold encode fuel d filepath f pages Hl Hp) in Hrun.
  cbv zeta in Hrun.
  set (content := match pages with page :: _ => page | [] => [] end) in *.
  destruct (blank_or_ink content) as [Hblank | Hink].
  - rewrite (strip_blank _ Hblank) in Hrun. cbn [truthy negb] in Hrun.
    rewrite under_budget_unchanged in Hrun.
    + injection Hrun as <-. split; [discriminate | left; reflexivity].
    + pose proof (Hbytes placeholder) as H.
      change (utf8_len placeholder) with 45 in H. unfold max_length. lia.
  - destruct (strip content) eqn:Es; [exfalso; exact (strip_ink _ Hink Es)|].
    cbn [truthy negb] in Hrun.
    assert (Hne : content <> []) by (intros ->; discriminate).
    destruct (fit_to_budget_keeps_enough encode fuel content max_length r Hbytes Hlen Hrun)
      as [Hres Hnonempty].
    split; [apply Hnonempty; [unfold max_length; lia | exact Hne]|].
    right. subst content. destruct pages as [|page rest]; [contradiction Hne; reflexivity|].
    exists page, rest. split; [reflexivity|]. split.
    + apply (fit_to_budget_prefix encode fuel max_length page r). exact Hrun.
    + destruct Hres as [-> | Hres]; [left; reflexivity|].
      right. unfold max_length in Hres. lia.
Qed.

Lemma extracted_text_is_never_empty_witness :
  placeholder <> []
  /\ (placeholder = placeholder
      \/ exists page rest,
           [lit "  " ++ [10%N; 9%N]] = page :: rest /\ is_prefix placeholder page
           /\ (placeholder = page \/ 3375 <= len placeholder)).
Proof.
  apply (extracted_text_is_never_empty encode_chars 0 [blank_pdf] (lit "a.pdf")
           blank_pdf [lit "  " ++ [10%N; 9%N]] placeholder encode_chars_bytes);
    vm_compute; reflexivity.
Defined.

(* ================================================================== *)
(** * Further properties of the sanitiser *)
(* ================================================================== *)

Lemma validate_of_valid tm s :
  word_1_50 s = true -> validate_and_trim_filename tm (Some s) = s.
Proof.
  unfold word_1_50. intros H.
  apply andb_true_iff in H as [H Hall]. apply andb_true_iff in H as [Hne Hlen].
  apply Nat.leb_le in Hlen.
  assert (Hf : filter in_word_class s = s) by (apply filter_all; assumption).
  rewrite validate_kept; rewrite Hf.
  - apply firstn_all2. assumption.
  - intros ->. discriminate.
Qed.

(** X7.  A candidate that already is a name of 1 to 50 characters of the
    class is returned unchanged, and sanitising the result of the
    sanitiser changes nothing. *)
Theorem sanitiser_fixes_valid_names (tm tm' : struct_time)
    (candidate : option str) (s : str) :
  gmtime_range tm ->
  (word_1_50 s = true -> validate_and_trim_filename tm' (Some s) = s)
  /\ validate_and_trim_filename tm'
       (Some (validate_and_trim_filename tm candidate))
     = validate_and_trim_filename tm candidate.
Proof.
  intros Htm. split; [apply validate_of_valid|].
  apply validate_of_valid, validate_word_1_50, Htm.
Qed.

Lemma sanitiser_fixes_valid_names_witness :
  (word_1_50 (lit "Acme_Invoice_4521") = true ->
   validate_and_trim_filename tm_example (Some (lit "Acme_Invoice_4521"))
   = lit "Acme_Invoice_4521")
  /\ validate_and_trim_filename tm_example
       (Some (validate_and_trim_filename tm_example (Some (lit "a b/c.pdf"))))
     = validate_and_trim_filename tm_example (Some (lit "a b/c.pdf")).
Proof.
  apply (sanitiser_fixes_valid_names tm_example tm_example
           (Some (lit "a b/c.pdf")) (lit "Acme_Invoice_4521")).
  unfold gmtime_range, fields_in_range, tm_example. cbn. lia.
Defined.

Lemma whitespace_not_in_class c :
  is_whitespace c = true -> in_word_class c = false.
Proof.
  intros H. pose proof (blank_has_no_word_character [c]) as Hb.
  cbn [forallb filter] in Hb. rewrite H in Hb. specialize (Hb eq_refl).
  destruct (in_word_class c); [discriminate | reflexivity].
Qed.

Lemma filter_lstrip s :
  filter in_word_class (lstrip s) = filter in_word_class s.
Proof.
  induction s as [|c t IH]; cbn [lstrip]; [reflexivity|].
  destruct (is_whitespace c) eqn:Ec; [|reflexivity].
  cbn [filter]. rewrite (whitespace_not_in_class c Ec). exact IH.
Qed.

Lemma filter_strip s :
  filter in_word_class (strip s) = filter in_word_class s.
Proof.
  unfold strip, rstrip.
  rewrite filter_rev, filter_lstrip, <- filter_rev, rev_involutive.
  apply filter_lstrip.
Qed.

(** The sanitiser looks at the characters of the class only. *)
Lemma validate_by_kept tm s s' :
  filter in_word_class s = filter in_word_class s' ->
  validate_and_trim_filename tm (Some s) = validate_and_trim_filename tm (Some s').
Proof.
  intros H. destruct (filter in_word_class s') as [|c kept] eqn:E.
  - rewrite (validate_fallback tm (Some s)) by exact H.
    rewrite (validate_fallback tm (Some s')) by exact E. reflexivity.
  - rewrite (validate_kept tm s) by (rewrite H; discriminate).
    rewrite (validate_kept tm s') by (rewrite E; discriminate).
    rewrite H, E. reflexivity.
Qed.

(** X8.  The name [get_new_filename_from_openai] returns is the sanitised
    answer of the service: candidates with the same characters of the
    class, in the same order, give the same name, so that stripping the
    answer first makes no difference; when the request fails nothing is
    returned and [APIError] propagates. *)
Theorem new_filename_is_sanitised_answer (gmtime : nat -> struct_time)
    (chat_completion : nat -> str -> option str) (i : nat) (pdf_content : str) :
  (forall tm s s', filter in_word_class s = filter in_word_class s' ->
     validate_and_trim_filename tm (Some s)
     = validate_and_trim_filename tm (Some s'))
  /\ (forall response, chat_completion i pdf_content = Some response ->
        get_new_filename_from_openai gmtime chat_completion i pdf_content
        = Return (validate_and_trim_filename (gmtime i) (Some response)))
  /\ (chat_completion i pdf_content = None ->
        get_new_filename_from_openai gmtime chat_completion i pdf_content
        = Raise APIError).
Proof.
  split; [exact validate_by_kept|]. split.
  - intros response H. unfold get_new_filename_from_openai.
    rewrite H. cbn [lift_option bind]. f_equal.
    apply validate_by_kept, filter_strip.
  - intros H. unfold get_new_filename_from_openai. rewrite H. reflexivity.
Qed.

Lemma new_filename_is_sanitised_answer_witness :
  get_new_filename_from_openai (fun _ => tm_example)
    (fun _ _ => Some (lit "  Acme Invoice.pdf ")) 0 (lit "text")
  = Return (validate_and_trim_filename tm_example
              (Some (lit "  Acme Invoice.pdf "))).
Proof.
  apply (proj1 (proj2 (new_filename_is_sanitised_answer (fun _ => tm_example)
                         (fun _ _ => Some (lit "  Acme Invoice.pdf ")) 0
                         (lit "text")))).
  reflexivity.
Defined.

(* ================================================================== *)
(** * Further properties of the collision check *)
(* ================================================================== *)

(** X9.  For a sanitised base name, the target of the rename is among
    the existing names only when both [base.pdf] and [base_01.pdf] are:
    one free name of the two is enough for the rename to hit no existing
    entry. *)
Theorem target_collides_only_if_both_taken (unicode_lower : str -> str)
    (base : str) (listing : list str) :
  forallb in_word_class base = true ->
  let final := deduplicate base (existing_pdfs unicode_lower listing) in
  In (final ++ lit ".pdf") listing ->
  In (base ++ lit ".pdf") listing /\ In (base ++ lit "_01" ++ lit ".pdf") listing.
Proof.
  intros Hbase final Hin.
  pose proof (existing_pdfs_member unicode_lower base listing Hbase) as Hmem.
  destruct (in_dec (list_eq_dec N.eq_dec) (base ++ lit ".pdf") listing)
    as [Htaken | Hfree].
  - split; [exact Htaken|].
    subst final. rewrite deduplicate_member in Hin by (apply Hmem; exact Htaken).
    rewrite <- app_assoc in Hin. exact Hin.
  - exfalso. subst final.
    rewrite deduplicate_fresh in Hin by (rewrite Hmem; exact Hfree).
    contradiction.
Qed.

Lemma target_collides_only_if_both_taken_witness :
  In (lit "report" ++ lit ".pdf") [lit "report.pdf"; lit "report_01.pdf"]
  /\ In (lit "report" ++ lit "_01" ++ lit ".pdf")
       [lit "report.pdf"; lit "report_01.pdf"].
Proof.
  apply (target_collides_only_if_both_taken lower_keep (lit "report")
           [lit "report.pdf"; lit "report_01.pdf"] eq_refl).
  right. left. reflexivity.
Defined.

(* ================================================================== *)
(** * Further properties of the batch *)
(* ================================================================== *)

Lemma insert_newest_perm x l : Permutation (insert_newest x l) (x :: l).
Proof.
  induction l as [|y t IH]; cbn [insert_newest]; [reflexivity|].
  destruct (f_mtime y >? f_mtime x); [|reflexivity].
  rewrite IH. apply perm_swap.
Qed.



Lemma sort_newest_first_perm l : Permutation (sort_newest_first l) l.
Proof.
  induction l as [|x l IH]; cbn [sort_newest_first fold_right]; [reflexivity|].
  fold (sort_newest_first l). rewrite insert_newest_perm. constructor. exact IH.
Qed.



Lemma lookup_in d name f : lookup d name = Some f -> In f d /\ f_name f = name.
Proof.
  unfold lookup. intros H. apply find_some in H as [Hin Heq].
  apply str_eqb_eq in Heq. auto.
Qed.

(** What a successful rename leaves of the entries it does not name, and
    where the entries afterwards come from. *)
Lemma os_rename_keeps d src dst d' x :
  os_rename d src dst = Some d' ->
  In x d -> f_name x <> src -> f_name x <> dst -> In x d'.
Proof.
  intros Hren Hin Hsrc Hdst. unfold os_rename in Hren.
  assert (Hx : (if str_eqb (f_name x) src
                then {| f_name := dst; f_mtime := f_mtime x;
                        f_isfile := f_isfile x; f_pdf := f_pdf x |}
                else x) = x).
  { destruct (str_eqb (f_name x) src) eqn:E; [|reflexivity].
    apply str_eqb_eq in E. contradiction. }
  destruct (lookup d src); [|discriminate].
  destruct (str_eqb src dst); [injection Hren as <-; assumption|].
  destruct (lookup d dst) as [g|].
  - destruct (f_isfile g); [|discriminate]. injection Hren as <-.
    apply in_map_iff. exists x. split; [exact Hx|].
    apply filter_In. split; [assumption|].
    destruct (str_eqb (f_name x) dst) eqn:E; [|reflexivity].
    apply str_eqb_eq in E. contradiction.
  - injection Hren as <-. apply in_map_iff. exists x. auto.
Qed.

Lemma os_rename_origin d src dst d' y :
  os_rename d src dst = Some d' -> In y d' ->
  exists x, In x d /\ f_pdf y = f_pdf x.
Proof.
  intros Hren Hin. unfold os_rename in Hren.
  destruct (lookup d src); [|discriminate].
  destruct (str_eqb src dst); [injection Hren as <-; eauto|].
  destruct (lookup d dst) as [g|].
  - destruct (f_isfile g); [|discriminate]. injection Hren as <-.
    apply in_map_iff in Hin as (x & <- & Hx). apply filter_In in Hx as [Hx _].
    exists x. split; [assumption|]. destruct (str_eqb (f_name x) src); reflexivity.
  - injection Hren as <-. apply in_map_iff in Hin as (x & <- & Hx).
    exists x. split; [assumption|]. destruct (str_eqb (f_name x) src); reflexivity.
Qed.

Section BatchInvariants.

Variable encode : str -> list N.
Variable unicode_lower : str -> str.
Variable gmtime : nat -> struct_time.
Variable chat_completion : nat -> str -> option str.
Variable fuel : nat.

Let run_one := rename_one encode unicode_lower gmtime chat_completion fuel.
Let run_loop := rename_loop encode unicode_lower gmtime chat_completion fuel.

(** A property of the world that every pass of the [for] loop keeps
    holds when the loop ends, and what holds of every way a pass can end
    early holds of the way the loop ends. *)
Lemma rename_loop_invariant (I : world -> Prop) (Q : batch_result -> Prop) :
  (forall w, I w -> Q (Finished w)) ->
  (forall i w filename, I w ->
     match run_one i w filename with
     | Finished w' => I w'
     | r => Q r
     end) ->
  forall files i w, I w -> Q (run_loop i w files).
Proof.
  intros Hdone Hstep. induction files as [|filename rest IH]; intros i w Hw.
  - apply Hdone, Hw.
  - unfold run_loop. cbn [rename_loop]. fold run_one.
    specialize (Hstep i w filename Hw).
    fold (run_one i w filename).
    destruct (run_one i w filename) as [w'|e w'|]; try exact Hstep.
    apply IH, Hstep.
Qed.

(** Entries whose names are not taken for PDFs are skipped. *)
Lemma rename_loop_skips files :
  forallb (fun name => negb (is_pdf_name unicode_lower name)) files = true ->
  forall i w, run_loop i w files = Finished w.
Proof.
  induction files as [|filename rest IH]; intros Hall i w; [reflexivity|].
  cbn [forallb] in Hall. apply andb_true_iff in Hall as [Hf Hrest].
  unfold run_loop. cbn [rename_loop]. unfold rename_one.
  unfold is_pdf_name in Hf. apply negb_true_iff in Hf. rewrite Hf.
  apply IH, Hrest.
Qed.

End BatchInvariants.

(** X11.  In a directory where no regular file has a name ending in
    [.pdf] (in any case), the run finishes at once: nothing is printed,
    nothing is renamed and the service is not asked. *)
Theorem no_pdf_no_effect (encode : str -> list N) (unicode_lower : str -> str)
    (gmtime : nat -> struct_time) (chat_completion : nat -> str -> option str)
    (fuel : nat) (w : world) :
  (forall x, In x (w_dir w) -> f_isfile x = true ->
             is_pdf_name unicode_lower (f_name x) = false) ->
  rename_pdfs_in_directory encode unicode_lower gmtime chat_completion fuel w
  = Finished w.
Proof.
  intros Hnone. unfold rename_pdfs_in_directory.
  apply rename_loop_skips. unfold listdir.
  apply forallb_forall. intros name Hname.
  apply in_map_iff in Hname as (x & <- & Hx).
  apply (Permutation_in _ (sort_newest_first_perm _)) in Hx.
  apply filter_In in Hx as [Hin Hfile].
  rewrite (Hnone x Hin Hfile). reflexivity.
Qed.

Lemma no_pdf_no_effect_witness :
  rename_pdfs_in_directory encode_chars lower_keep (fun _ => tm_example)
    service_up 0 {| w_dir := [notes_txt; blocking_dir]; w_out := [] |}
  = Finished {| w_dir := [notes_txt; blocking_dir]; w_out := [] |}.
Proof.
  apply (no_pdf_no_effect encode_chars lower_keep (fun _ => tm_example)
           service_up 0 {| w_dir := [notes_txt; blocking_dir]; w_out := [] |}).
  intros x [<- | [<- | []]] Hfile; [reflexivity | discriminate].
Defined.

Lemma new_filename_sanitised gmtime chat_completion i pdf_content name :
  gmtime_range (gmtime i) ->
  get_new_filename_from_openai gmtime chat_completion i pdf_content = Return name ->
  forallb in_word_class name = true.
Proof.
  intros Htm. unfold get_new_filename_from_openai.
  destruct (chat_completion i pdf_content) as [response|]; cbn [lift_option bind];
    [|discriminate].
  intros H. injection H as <-.
  pose proof (validate_word_1_50 (gmtime i) (Some (strip response)) Htm) as Hw.
  unfold word_1_50 in Hw. apply andb_true_iff in Hw as [_ Hw]. exact Hw.
Qed.

Lemma deduplicate_sanitised name existing :
  forallb in_word_class name = true ->
  forallb in_word_class (deduplicate name existing) = true.
Proof.
  intros H. unfold deduplicate. destruct (existsb _ _); [|assumption].
  rewrite forallb_app, H. reflexivity.
Qed.

Section BatchSafety.

Variable encode : str -> list N.
Variable unicode_lower : str -> str.
Variable gmtime : nat -> struct_time.
Variable chat_completion : nat -> str -> option str.
Variable fuel : nat.

Hypothesis gmtime_ok : forall i, gmtime_range (gmtime i).

(** One pass leaves alone every entry whose name is not taken for a PDF. *)
Lemma rename_one_keeps_others x i w filename :
  In x (w_dir w) -> is_pdf_name unicode_lower (f_name x) = false ->
  match rename_one encode unicode_lower gmtime chat_completion fuel i w filename with
  | Finished w' => In x (w_dir w')
  | r => ends_with (fun w' => In x (w_dir w')) r
  end.
Proof.
  intros Hin Hx. unfold rename_one.
  destruct (endswith (lower unicode_lower filename) (lit ".pdf")) eqn:Epdf;
    [|exact Hin].
  change (w_dir (print w (Reading filename))) with (w_dir w).
  destruct (pdfs_to_text_string encode fuel (w_dir w) filename)
    as [pdf_content|e|]; cbn [ends_with]; try exact Hin; try exact I.
  destruct (get_new_filename_from_openai gmtime chat_completion i pdf_content)
    as [name|e|] eqn:Ename; cbn [ends_with]; try exact Hin; try exact I.
  apply new_filename_sanitised in Ename; [|apply gmtime_ok].
  set (final := deduplicate name
                  (existing_pdfs unicode_lower (listdir (w_dir w)))).
  assert (Hfinal : is_pdf_name unicode_lower (final ++ lit ".pdf") = true).
  { apply sanitised_pdf_name_is_pdf, deduplicate_sanitised, Ename. }
  destruct (os_rename (w_dir w) filename (final ++ lit ".pdf")) as [d'|] eqn:Eren;
    cbn [w_dir print]; [|exact Hin].
  apply (os_rename_keeps _ _ _ _ _ Eren Hin).
  - intros Heq. unfold is_pdf_name in Hx. rewrite Heq, Epdf in Hx. discriminate.
  - intros Heq. rewrite Heq, Hfinal in Hx. discriminate.
Qed.

Lemma rename_loop_keeps_others x files i w :
  In x (w_dir w) -> is_pdf_name unicode_lower (f_name x) = false ->
  ends_with (fun w' => In x (w_dir w'))
    (rename_loop encode unicode_lower gmtime chat_completion fuel i w files).
Proof.
  intros Hin Hx.
  apply (rename_loop_invariant encode unicode_lower gmtime chat_completion fuel
           (fun w => In x (w_dir w))
           (ends_with (fun w' => In x (w_dir w')))); [auto | | exact Hin].
  intros i' w' filename Hin'.
  apply rename_one_keeps_others; assumption.
Qed.

Hypothesis encode_nil : encode [] = [].
Hypothesis enough_fuel : (max_passes <= fuel)%nat.

(** One pass comes to an end and keeps the first pages short. *)
Lemma rename_one_ends i w filename :
  pages_short (w_dir w) ->
  match rename_one encode unicode_lower gmtime chat_completion fuel i w filename with
  | Finished w' => pages_short (w_dir w')
  | r => r <> Diverged
  end.
Proof.
  intros Hshort. unfold rename_one.
  destruct (endswith (lower unicode_lower filename) (lit ".pdf")); [|exact Hshort].
  change (w_dir (print w (Reading filename))) with (w_dir w).
  assert (Htext : pdfs_to_text_string encode fuel (w_dir w) filename <> OutOfFuel).
  { destruct (lookup (w_dir w) filename) as [f|] eqn:Ef;
      [|unfold pdfs_to_text_string; rewrite Ef; discriminate].
    destruct (f_pdf f) as [pages|] eqn:Epages;
      [|unfold pdfs_to_text_string; rewrite Ef; cbn [lift_option bind];
        rewrite Epages; discriminate].
    rewrite (pdfs_to_text_string_unfold encode fuel _ _ f pages Ef Epages).
    apply lookup_in in Ef as [Hf _]. cbv zeta.
    match goal with
    | |- fit_to_budget _ _ _ ?c <> _ => set (content := c)
    end.
    assert (Hlen : len content < 2 ^ 49).
    { subst content. destruct (negb _); [vm_compute; reflexivity|].
      destruct pages as [|page rest]; [vm_compute; reflexivity|].
      eapply Hshort; eassumption. }
    destruct (fit_to_budget_pass_bound encode content max_length fuel
                encode_nil ltac:(unfold max_length; lia) Hlen enough_fuel)
      as [r Hr].
    rewrite Hr. discriminate. }
  destruct (pdfs_to_text_string encode fuel (w_dir w) filename)
    as [pdf_content|e|]; [|discriminate|contradiction].
  unfold get_new_filename_from_openai.
  destruct (chat_completion i pdf_content) as [response|];
    cbn [lift_option bind]; [|discriminate].
  destruct (os_rename _ _ _) as [d'|] eqn:Eren; cbn [w_dir print]; [|exact Hshort].
  intros y page rest Hy Hpdf.
  destruct (os_rename_origin _ _ _ _ _ Eren Hy) as (x & Hx & Hsame).
  rewrite Hsame in Hpdf. eapply Hshort; eassumption.
Qed.

Lemma rename_loop_ends files i w :
  pages_short (w_dir w) ->
  rename_loop encode unicode_lower gmtime chat_completion fuel i w files
  <> Diverged.
Proof.
  intros Hshort.
  apply (rename_loop_invariant encode unicode_lower gmtime chat_completion fuel
           (fun w => pages_short (w_dir w)) (fun r => r <> Diverged));
    [discriminate | | exact Hshort].
  intros i' w' filename Hw'. apply rename_one_ends, Hw'.
Qed.

End BatchSafety.

(** X12.  Entries whose names do not end in [.pdf] (in any case) outlive
    the run: however it ends, normally or by an exception, each of them is
    in the directory as it was, with its name, time and content. *)
Theorem non_pdf_entries_survive (encode : str -> list N)
    (unicode_lower : str -> str) (gmtime : nat -> struct_time)
    (chat_completion : nat -> str -> option str) (fuel : nat)
    (w : world) (x : file) :
  (forall i, gmtime_range (gmtime i)) ->
  In x (w_dir w) -> is_pdf_name unicode_lower (f_name x) = false ->
  ends_with (fun w' => In x (w_dir w'))
    (rename_pdfs_in_directory encode unicode_lower gmtime chat_completion fuel w).
Proof.
  intros Htm Hin Hx. unfold rename_pdfs_in_directory.
  apply rename_loop_keeps_others; assumption.
Qed.

Lemma gmtime_example_range : forall i : nat, gmtime_range ((fun _ => tm_example) i).
Proof. intros i. unfold gmtime_range, fields_in_range, tm_example. cbn. lia. Qed.

Lemma non_pdf_entries_survive_witness :
  ends_with (fun w' => In notes_txt (w_dir w'))
    (rename_pdfs_in_directory encode_chars lower_keep (fun _ => tm_example)
       service_up 100 {| w_dir := [invoice_pdf; notes_txt]; w_out := [] |}).
Proof.
  apply (non_pdf_entries_survive encode_chars lower_keep (fun _ => tm_example)
           service_up 100 {| w_dir := [invoice_pdf; notes_txt]; w_out := [] |}
           notes_txt gmtime_example_range).
  - right. left. reflexivity.
  - reflexivity.
Defined.

(** X13.  The run over a directory comes to an end, normally or by an
    exception, once 306 passes of the shrink loop are allowed per file:
    the tokenizer gives no token for the empty text and the first pages
    have fewer than [2^49] characters. *)
Theorem batch_terminates (encode : str -> list N)
    (unicode_lower : str -> str) (gmtime : nat -> struct_time)
    (chat_completion : nat -> str -> option str) (fuel : nat) (w : world) :
  encode [] = [] -> (max_passes <= fuel)%nat -> pages_short (w_dir w) ->
  (exists w', rename_pdfs_in_directory encode unicode_lower gmtime
                chat_completion fuel w = Finished w')
  \/ (exists e w', rename_pdfs_in_directory encode unicode_lower gmtime
                     chat_completion fuel w = Uncaught e w').
Proof.
  intros Hnil Hfuel Hshort.
  pose proof (rename_loop_ends encode unicode_lower gmtime chat_completion fuel
                Hnil Hfuel
                (listdir (sort_newest_first (filter f_isfile (w_dir w)))) 0 w
                Hshort) as Hend.
  unfold rename_pdfs_in_directory.
  destruct (rename_loop _ _ _ _ _ _ _ _) as [w'|e w'|]; eauto. contradiction.
Qed.

Lemma example_pages_short : pages_short [invoice_pdf; notes_txt].
Proof.
  intros y page rest [<- | [<- | []]] Hpdf; cbn in Hpdf; [|discriminate].
  injection Hpdf as <- _. vm_compute. reflexivity.
Qed.

Lemma batch_terminates_witness :
  (exists w', rename_pdfs_in_directory encode_chars lower_keep
                (fun _ => tm_example) service_up 306
                {| w_dir := [invoice_pdf; notes_txt]; w_out := [] |}
              = Finished w')
  \/ (exists e w', rename_pdfs_in_directory encode_chars lower_keep
                     (fun _ => tm_example) service_up 306
                     {| w_dir := [invoice_pdf; notes_txt]; w_out := [] |}
                   = Uncaught e w').
Proof.
  apply (batch_terminates encode_chars lower_keep (fun _ => tm_example)
           service_up 306 {| w_dir := [invoice_pdf; notes_txt]; w_out := [] |}).
  - reflexivity.
  - unfold max_passes. lia.
  - exact example_pages_short.
Defined.

Lemma content_token_cut_result_fits (encode : str -> list N) max_tokens r :
  forall fuel content,
    content_token_cut encode fuel content (len (encode content)) max_tokens
    = Return r ->
    len (encode r) <= max_tokens.
Proof.
  induction fuel as [|fuel IH]; intros content; cbn [content_token_cut];
    destruct (len (encode content) >? max_tokens) eqn:E; try discriminate;
    try (intros H; injection H as <-;
         rewrite Z.gtb_ltb in E; apply Z.ltb_ge in E; exact E).
  destruct (shrink content) as [content'| |]; cbn [bind]; try discriminate.
  apply IH.
Qed.

(** X14.  Whatever the tokenizer, a text that [pdfs_to_text_string]
    returns has at most 15000 tokens: the service is never handed a text
    over the budget. *)
Theorem extracted_text_fits_budget (encode : str -> list N) (fuel : nat)
    (d : directory) (filepath : str) (r : str) :
  pdfs_to_text_string encode fuel d filepath = Return r ->
  len (encode r) <= max_length.
Proof.
  unfold pdfs_to_text_string.
  destruct (lookup d filepath) as [f|]; cbn [lift_option bind]; [|discriminate].
  destruct (f_pdf f) as [pages|]; cbn [lift_option bind]; [|discriminate].
  cbv zeta. unfold fit_to_budget.
  match goal with
  | |- (if len (encode ?c) >? _ then _ else _) = _ -> _ => set (content := c)
  end.
  destruct (len (encode content) >? max_length) eqn:E.
  - apply content_token_cut_result_fits.
  - intros H. injection H as <-.
    rewrite Z.gtb_ltb in E. apply Z.ltb_ge in E. exact E.
Qed.

Lemma extracted_text_fits_budget_witness :
  len (encode_chars (lit "Invoice #4521 from Acme Corp")) <= max_length.
Proof.
  apply (extracted_text_fits_budget encode_chars 0 [invoice_pdf] (lit "a.pdf")
           (lit "Invoice #4521 from Acme Corp")).
  reflexivity.
Defined.

(* ================================================================== *)
(** * The budget when the tokenizer may refuse the text *)
(* ================================================================== *)

Lemma starts_with_firstn t k s :
  starts_with t (firstn k s) = true -> starts_with t s = true.
Proof.
  unfold starts_with. intros H. apply str_eqb_eq in H. apply str_eqb_eq.
  rewrite firstn_firstn in H.
  assert (Hlen : length t = Nat.min (Nat.min (length t) k) (length s)).
  { rewrite <- H at 1. apply length_firstn. }
  replace (Nat.min (length t) k) with (length t) in H by lia. exact H.
Qed.

Lemma occurs_firstn t :
  forall s k, occurs t (firstn k s) = true -> occurs t s = true.
Proof.
  induction s as [|c s IH]; intros k H.
  - rewrite firstn_nil in H. exact H.
  - cbn [occurs]. apply orb_true_iff. destruct k as [|k].
    + left. apply (starts_with_firstn t 0). exact H.
    + cbn [firstn occurs] in H. apply orb_true_iff in H as [H | H].
      * left. apply (starts_with_firstn t (S k)). exact H.
      * right. apply (IH k). exact H.
Qed.

(** An initial segment of a text that spells no special token spells
    none. *)
Lemma spells_special_prefix p s :
  is_prefix p s -> spells_special s = false -> spells_special p = false.
Proof.
  intros [k ->] Hs. unfold spells_special in *.
  destruct (existsb (fun t => occurs t (firstn k s)) special_tokens) eqn:E;
    [|reflexivity].
  apply existsb_exists in E as (t & Ht & Hocc).
  apply occurs_firstn in Hocc.
  assert (existsb (fun t => occurs t s) special_tokens = true)
    by (apply existsb_exists; eauto).
  congruence.
Qed.

Section RaisingAgrees.

Variable tokenizer : str -> outcome (list N).
Variable encode : str -> list N.
Variable max_tokens : Z.

(** Where the tokenizer accepts every initial segment of the content,
    the loop with exceptions does what the loop without them does. *)
Lemma content_token_cut_raising_agrees fuel :
  forall content num_tokens,
    (forall p, is_prefix p content -> tokenizer p = Return (encode p)) ->
    content_token_cut_raising tokenizer fuel content num_tokens max_tokens
    = content_token_cut encode fuel content num_tokens max_tokens.
Proof.
  induction fuel as [|fuel IH]; intros content num_tokens Hacc;
    cbn [content_token_cut_raising content_token_cut];
    destruct (num_tokens >? max_tokens); try reflexivity.
  destruct (shrink content) as [content'|e|] eqn:Es; cbn [bind];
    try reflexivity.
  pose proof (shrink_is_prefix content content' Es) as Hpre.
  rewrite (Hacc content' Hpre). cbn [bind]. apply IH.
  intros p Hp. apply Hacc. eapply is_prefix_trans; eassumption.
Qed.

Lemma fit_to_budget_raising_agrees fuel content :
  (forall p, is_prefix p content -> tokenizer p = Return (encode p)) ->
  fit_to_budget_raising tokenizer fuel max_tokens content
  = fit_to_budget encode fuel max_tokens content.
Proof.
  intros Hacc. unfold fit_to_budget_raising, fit_to_budget.
  rewrite (Hacc content (is_prefix_refl content)). cbn [bind].
  destruct (len (encode content) >? max_tokens); [|reflexivity].
  apply content_token_cut_raising_agrees. exact Hacc.
Qed.

(** A refusal of the content itself leaves the budgeting step at once. *)
Lemma fit_to_budget_raising_refused fuel content e :
  tokenizer content = Raise e ->
  fit_to_budget_raising tokenizer fuel max_tokens content = Raise e.
Proof. intros H. unfold fit_to_budget_raising. rewrite H. reflexivity. Qed.

End RaisingAgrees.

(** C1 (amended).  For every content that spells no special token of the
    tokenizer and every budget [max_tokens > 0], the budgeting step of
    [pdfs_to_text_string] returns (with any number of allowed passes above
    the length of the content) a string that spells no special token and
    whose token count is at most [max_tokens], or the empty string.  For a
    content that spells a special token the tokenizer raises [ValueError]
    on the first count and the step returns nothing.  The tokenizer gives
    no token for the empty text, and the content has fewer than [2^49]
    characters. *)
Theorem fit_to_budget_raising_within_budget (encode : str -> list N)
    (content : str) (max_tokens : Z) :
  encode [] = [] -> 0 < max_tokens -> len content < 2 ^ 49 ->
  (spells_special content = false ->
     exists r,
       (forall fuel, (length content < fuel)%nat ->
          fit_to_budget_raising (tiktoken_encode encode) fuel max_tokens content
          = Return r)
       /\ tiktoken_encode encode r = Return (encode r)
       /\ (len (encode r) <= max_tokens \/ r = []))
  /\ (spells_special content = true ->
        forall fuel,
          fit_to_budget_raising (tiktoken_encode encode) fuel max_tokens content
          = Raise ValueError).
Proof.
  intros Hnil Hpos Hlen. split.
  - intros Hfree.
    assert (Hacc : forall p, is_prefix p content ->
               tiktoken_encode encode p = Return (encode p)).
    { intros p Hp. unfold tiktoken_encode.
      rewrite (spells_special_prefix p content Hp Hfree). reflexivity. }
    destruct (fit_to_budget_total encode Hnil max_tokens Hpos content Hlen)
      as (r & Hrun & Hr).
    exists r. split; [|split].
    + intros fuel Hfuel.
      rewrite (fit_to_budget_raising_agrees _ encode max_tokens fuel content Hacc).
      apply Hrun, Hfuel.
    + apply Hacc.
      apply (fit_to_budget_prefix encode (S (length content)) max_tokens).
      apply Hrun. lia.
    + left. exact Hr.
  - intros Hspecial fuel. apply fit_to_budget_raising_refused.
    unfold tiktoken_encode. rewrite Hspecial. reflexivity.
Qed.

Lemma fit_to_budget_raising_within_budget_witness :
  (spells_special (lit "0123456789") = false ->
     exists r,
       (forall fuel, (length (lit "0123456789") < fuel)%nat ->
          fit_to_budget_raising (tiktoken_encode encode_chars) fuel 5
            (lit "0123456789") = Return r)
       /\ tiktoken_encode encode_chars r = Return (encode_chars r)
       /\ (len (encode_chars r) <= 5 \/ r = []))
  /\ (spells_special (lit "0123456789") = true ->
        forall fuel,
          fit_to_budget_raising (tiktoken_encode encode_chars) fuel 5
            (lit "0123456789") = Raise ValueError).
Proof.
  apply (fit_to_budget_raising_within_budget encode_chars (lit "0123456789") 5);
    [reflexivity | lia | vm_compute; reflexivity].
Defined.

Example fit_to_budget_raising_run :
  fit_to_budget_raising (tiktoken_encode encode_chars) 11 5 (lit "0123456789")
  = Return (lit "01234")
  /\ fit_to_budget_raising (tiktoken_encode encode_chars) 11 5
       (lit "ab<|endoftext|>cd") = Raise ValueError.
Proof. split; vm_compute; reflexivity. Qed.

(** C1 as stated fails: on the content ["<|endoftext|>"], under the budget
    of 15000 tokens, no number of passes makes the budgeting step return a
    string, empty or not; the tokenizer raises on the first count. *)
Lemma special_token_content_returns_nothing :
  ~ (exists fuel r,
       fit_to_budget_raising (tiktoken_encode encode_chars) fuel max_length
         (lit "<|endoftext|>") = Return r
       /\ (len (encode_chars r) <= max_length \/ r = [])).
Proof.
  intros (fuel & r & Hrun & _).
  rewrite (fit_to_budget_raising_refused (tiktoken_encode encode_chars)
             max_length fuel (lit "<|endoftext|>") ValueError eq_refl) in Hrun.
  discriminate.
Qed.

(* ================================================================== *)
(** * The order in which the files are read *)
(* ================================================================== *)


Section ReadingOrder.

Variable encode : str -> list N.
Variable unicode_lower : str -> str.
Variable gmtime : nat -> struct_time.
Variable chat_completion : nat -> str -> option str.
Variable fuel : nat.



End ReadingOrder.


Example reading_order_runs :
  ends_with (fun w' => readings (w_out w') = [lit "a.pdf"])
    (rename_pdfs_in_directory encode_chars lower_keep (fun _ => tm_example)
       service_fails_once 100
       {| w_dir := [notes_txt; report_pdf; invoice_pdf]; w_out := [] |})
  /\ ends_with (fun w' => readings (w_out w') = [lit "a.pdf"; lit "b.pdf"])
       (rename_pdfs_in_directory encode_chars lower_keep (fun _ => tm_example)
          service_up 100
          {| w_dir := [notes_txt; report_pdf; invoice_pdf]; w_out := [] |}).
Proof. split; vm_compute; reflexivity. Qed.
